(** * configure-environment.cpp: provisioning and invocation of vcpkg-artifacts

    A shallow embedding of [src/src/vcpkg/configure-environment.cpp]:
    - [more_than_one_mapped] and [forward_common_artifacts_arguments]
      (the argument forwarder);
    - [download_vcpkg_standalone_bundle] (the bundle fetcher) and the
      provisioning part of [run_configure_environment_command] (version
      gate and install), over a small filesystem and an exit/state monad;
    - the command line built by [run_configure_environment_command];
    - [track_telemetry] and the exit code returned to the caller. *)

From stdpp Require Import base list gmap strings.
From Stdlib Require Import ZArith.

Open Scope string_scope.
Set Warnings "-register-all".

(* ================================================================= *)
(** ** Contractual constants (declared in contractual-constants.h) *)

Module Const.
(** Modelled from the spec: the switch names of the three
    platform-dimension groups (operating systems, host architectures,
    target architectures); their spelling is vcpkg's contractual one. *)
Definition SwitchWindows := "windows".
Definition SwitchOsx := "osx".
Definition SwitchLinux := "linux".
Definition SwitchFreeBsd := "freebsd".
Definition SwitchX86 := "x86".
Definition SwitchX64 := "x64".
Definition SwitchArm := "arm".
Definition SwitchArm64 := "arm64".
Definition SwitchTargetX86 := "target:x86".
Definition SwitchTargetX64 := "target:x64".
Definition SwitchTargetArm := "target:arm".
Definition SwitchTargetArm64 := "target:arm64".

(** Modelled from the spec: the two telemetry field names. *)
Definition JsonIdAcquiredArtifacts := "acquired_artifacts".
Definition JsonIdActivatedArtifacts := "activated_artifacts".
End Const.
Import Const.

(* ================================================================= *)
(** ** Argument forwarder *)

Module Forward.

Definition ArtifactOperatingSystemsSwitchNamesStorage : list string :=
  [SwitchWindows; SwitchOsx; SwitchLinux; SwitchFreeBsd].
Definition ArtifactHostPlatformSwitchNamesStorage : list string :=
  [SwitchX86; SwitchX64; SwitchArm; SwitchArm64].
Definition ArtifactTargetPlatformSwitchNamesStorage : list string :=
  [SwitchTargetX86; SwitchTargetX64; SwitchTargetArm; SwitchTargetArm64].

(** [parsed.switches] is a [std::set<StringLiteral>]: we keep it as the
    list of its elements in iteration order. *)
Definition contains (switches : list string) (s : string) : bool :=
  existsb (String.eqb s) switches.

(** The loop of [more_than_one_mapped], with its [seen] flag. *)
Fixpoint more_than_one_mapped_loop (seen : bool) (candidates switches : list string)
  : bool :=
  match candidates with
  | [] => false
  | c :: cs =>
      if contains switches c
      then (if seen then true else more_than_one_mapped_loop true cs switches)
      else more_than_one_mapped_loop seen cs switches
  end.

Definition more_than_one_mapped (candidates switches : list string) : bool :=
  more_than_one_mapped_loop false candidates switches.

(** The three fatal messages of the validation. *)
Inductive forward_error :=
| ArtifactsSwitchOnlyOneOperatingSystem
| ArtifactsSwitchOnlyOneHostPlatform
| ArtifactsSwitchOnlyOneTargetPlatform.

(** [Checks::msg_exit_with_error] ends the process: [FwdExit e v] records
    the message and the contents of [appended_to] at that point. *)
Inductive forward_result :=
| FwdDone (appended_to : list string)
| FwdExit (e : forward_error) (appended_to : list string).

Definition format_switch (s : string) : string := "--" +:+ s.

Definition forward_settings (settings : list (string * string)) : list string :=
  flat_map (fun kv => [format_switch kv.1; kv.2]) settings.

(** [forward_common_artifacts_arguments appended_to parsed]: [settings]
    is the sequence in which [parsed.settings] enumerates its entries. *)
Definition forward_common_artifacts_arguments (appended_to : list string)
  (switches : list string) (settings : list (string * string)) : forward_result :=
  let appended_to := (appended_to ++ map format_switch switches)%list in
  if more_than_one_mapped ArtifactOperatingSystemsSwitchNamesStorage switches
  then FwdExit ArtifactsSwitchOnlyOneOperatingSystem appended_to
  else if more_than_one_mapped ArtifactHostPlatformSwitchNamesStorage switches
  then FwdExit ArtifactsSwitchOnlyOneHostPlatform appended_to
  else if more_than_one_mapped ArtifactTargetPlatformSwitchNamesStorage switches
  then FwdExit ArtifactsSwitchOnlyOneTargetPlatform appended_to
  else FwdDone (appended_to ++ forward_settings settings)%list.

(** Number of switches of a group that are set. *)
Definition count_set (group switches : list string) : nat :=
  length (List.filter (contains switches) group).

End Forward.

(* ================================================================= *)
(** ** Exit code of the delegate *)

Module ExitCode.

(** [cmd_execute] yields an [int]; [node_result] is that signed value. *)
Definition int_min : Z := (- 2 ^ 31)%Z.
Definition int_max : Z := (2 ^ 31 - 1)%Z.

(** The signed branch of the final [if constexpr]. *)
Definition clamp_exit_code (node_result : Z) : Z :=
  (if (node_result <? 0) || (127 <? node_result) then 1 else node_result)%Z.

End ExitCode.

(* ================================================================= *)
(** ** Filesystem and the provisioning monad *)

Module Fs.

(** A path is the list of its components; [p / n] is [p ++ [n]]. *)
Abbreviation path := (list string) (only parsing).

(** A regular file: its contents, or a file the process cannot read. *)
Inductive file :=
| Contents (c : string)
| Unreadable.

(** The filesystem maps the path of every regular file to the file;
    a directory exists when some file lies below it. *)
Abbreviation filesystem := (gmap (list string) file) (only parsing).

Definition fs_exists (p : path) (m : filesystem) : bool :=
  existsb (fun k => bool_decide (p `prefix_of` k)) (map fst (map_to_list m)).

(** [remove_all p]: [p] and everything below it. *)
Definition remove_all (p : path) (m : filesystem) : filesystem :=
  filter (fun kv => ¬ p `prefix_of` kv.1) m.

(** [rename src dst]: every file below [src] moves below [dst]. *)
Definition rename (src dst : path) (m : filesystem) : filesystem :=
  list_to_map
    (map (fun kv => (if decide (src `prefix_of` kv.1)
                     then (dst ++ drop (length src) kv.1)%list else kv.1, kv.2))
         (map_to_list m)).

Inductive read_result :=
| ReadOk (c : string)
| ReadNotFound
| ReadError.

(** [read_contents p]: a directory at [p] is a read error too. *)
Definition read_contents (p : path) (m : filesystem) : read_result :=
  match m !! p with
  | Some (Contents c) => ReadOk c
  | Some Unreadable => ReadError
  | None => if fs_exists p m then ReadError else ReadNotFound
  end.

(** The filesystem and download calls made by the code. *)
Inductive fs_op :=
| OpRemove (p : path)
| OpRemoveAll (p : path)
| OpRename (src dst : path)
| OpWriteContents (p : path) (c : string)
| OpExtract (archive temp : path)
| OpDownload (uri : string) (dest : path) (sha : option string).

(** The collaborators outside this file: host I/O errors, what a URI
    serves, the hash, the archive format and the extractor's choice of
    temporary directory. *)
Record world := {
  io_fails : fs_op -> bool;
  remote : string -> option string;
  sha512 : string -> string;
  decode_archive : string -> option (list (path * string));
  temp_subdirectory : path -> path -> path
}.

Definition extract_into (temp : path) (entries : list (path * string))
  (m : filesystem) : filesystem :=
  fold_left (fun m e => <[(temp ++ e.1)%list := Contents e.2]> m) entries m.

(** Modelled from the spec: the extractor ([extract_archive_to_temp_subdirectory],
    not in this file) extracts the whole archive into a freshly created
    temporary subdirectory and fails loudly on a corrupt archive; the
    downloader ([download_file_asset_cached], not in this file) verifies the
    hash when one is given and leaves no partial file on failure. *)
Definition apply_op (w : world) (o : fs_op) (m : filesystem) : option filesystem :=
  match o with
  | OpRemove p => Some (delete p m)
  | OpRemoveAll p => Some (remove_all p m)
  | OpRename src dst =>
      if fs_exists src m && negb (fs_exists dst m)
      then Some (rename src dst m) else None
  | OpWriteContents p c => Some (<[p := Contents c]> m)
  | OpExtract archive temp =>
      match m !! archive with
      | Some (Contents c) =>
          match decode_archive w c with
          | Some entries => Some (extract_into temp entries (remove_all temp m))
          | None => None
          end
      | _ => None
      end
  | OpDownload uri dest sha =>
      match remote w uri with
      | Some c =>
          match sha with
          | Some h => if String.eqb (sha512 w c) h
                      then Some (<[dest := Contents c]> m) else None
          | None => Some (<[dest := Contents c]> m)
          end
      | None => None
      end
  end.

Inductive diag_kind := DiagStatus | DiagWarning | DiagError.

(** What the run leaves in its log: each call with its outcome, and each
    diagnostic reported. *)
Inductive event :=
| EvOp (o : fs_op) (ok : bool)
| EvReport (k : diag_kind).

Record state := mkState { st_fs : gmap (list string) file; st_log : list event }.

(** State with exit: [None] is a call to [Checks::exit_fail] or one of
    the [VCPKG_LINE_INFO] overloads failing. *)
Definition M (A : Type) : Type := state -> option A * state.

Definition ret {A} (a : A) : M A := fun s => (Some a, s).
Definition bind {A B} (c : M A) (f : A -> M B) : M B := fun s =>
  match c s with
  | (Some a, s') => f a s'
  | (None, s') => (None, s')
  end.

Notation "'let*' x ':=' c 'in' k" := (bind c (fun x => k))
  (at level 200, x name, c at level 100, k at level 200).
Notation "c ;;; k" := (bind c (fun _ : unit => k)) (at level 100, right associativity).

Definition gets {A} (f : filesystem -> A) : M A := fun s => (Some (f (st_fs s)), s).

Definition exit_fail {A} : M A := fun s => (None, s).

Definition report (k : diag_kind) : M unit :=
  fun s => (Some (), mkState (st_fs s) (st_log s ++ [EvReport k])%list).

(** The [std::error_code&] overloads: the outcome is returned. *)
Definition try_op (w : world) (o : fs_op) : M bool := fun s =>
  if io_fails w o then (Some false, mkState (st_fs s) (st_log s ++ [EvOp o false])%list)
  else match apply_op w o (st_fs s) with
       | Some m' => (Some true, mkState m' (st_log s ++ [EvOp o true])%list)
       | None => (Some false, mkState (st_fs s) (st_log s ++ [EvOp o false])%list)
       end.

(** The [VCPKG_LINE_INFO] overloads: failure exits. *)
Definition do_op (w : world) (o : fs_op) : M unit :=
  let* b := try_op w o in if b then ret tt else exit_fail.


(* ----------------------------------------------------------------- *)
(** *** Version gate, bundle fetcher, installer *)

(** [VCPKG_STANDALONE_BUNDLE_SHA] defined (pinned: the build's
    [VCPKG_BASE_VERSION_AS_STRING] and the bundle hash) or not (latest). *)
Inductive mode :=
| Pinned (version sha : string)
| Latest.

(** Modelled from the spec: [check_update_required] (not in this file)
    reports stale when the marker file is absent, unreadable, or its
    contents differ from the expected version; it never fails, so the
    [value_or_exit] that follows it never exits. *)
Definition check_update_required (version_path : path) (expected : string)
  (m : filesystem) : bool :=
  match read_contents version_path m with
  | ReadOk c => negb (String.eqb c expected)
  | ReadNotFound => true
  | ReadError => true
  end.

Definition version_path (live : path) : path := (live ++ ["version.txt"])%list.
Definition sentinel_path (live : path) : path :=
  (live ++ ["artifacts-development.txt"])%list.
Definition main_path (live : path) : path := (live ++ ["main.js"])%list.

(** [out_of_date] of [run_configure_environment_command]. *)
Definition version_gate (md : mode) (live : path) (m : filesystem) : bool :=
  match md with
  | Pinned v _ => check_update_required (version_path live) v m
  | Latest => negb (fs_exists (sentinel_path live) m)
  end.

Definition tarball_name (md : mode) : string :=
  match md with
  | Pinned v _ => "vcpkg-standalone-bundle-" +:+ v +:+ ".tar.gz"
  | Latest => "vcpkg-standalone-bundle-latest.tar.gz"
  end.

Definition bundle_uri (md : mode) : string :=
  match md with
  | Pinned v _ => "https://github.com/microsoft/vcpkg-tool/releases/download/" +:+ v
                  +:+ "/vcpkg-standalone-bundle.tar.gz"
  | Latest =>
      "https://github.com/microsoft/vcpkg-tool/releases/latest/download/vcpkg-standalone-bundle.tar.gz"
  end.

Section WithWorld.
Variable w : world.

Definition download_vcpkg_standalone_bundle (md : mode) (download_root : path)
  : M (option path) :=
  let bundle_tarball := (download_root ++ [tarball_name md])%list in
  match md with
  | Pinned v sha =>
      report DiagStatus;;;
      let* ok := try_op w (OpDownload (bundle_uri md) bundle_tarball (Some sha)) in
      if ok then ret (Some bundle_tarball) else ret None
  | Latest =>
      report DiagWarning;;;
      let* removed := try_op w (OpRemove bundle_tarball) in
      if negb removed then (report DiagError;;; ret None)
      else
        let* ok := try_op w (OpDownload (bundle_uri md) bundle_tarball None) in
        if ok then ret (Some bundle_tarball) else ret None
  end.

(** The calls of lines 202-210, in order. *)
Definition install_plan (md : mode) (tarball live temp : path) : list fs_op :=
  [OpExtract tarball temp;
   OpRemoveAll live;
   OpRename (temp ++ ["vcpkg-artifacts"])%list live;
   OpRemoveAll temp;
   OpRemove tarball] ++
  match md with
  | Pinned v _ => [OpWriteContents (version_path live) v]
  | Latest => []
  end.

Definition install (md : mode) (tarball live temp : path) : M unit :=
  do_op w (OpExtract tarball temp);;;
  do_op w (OpRemoveAll live);;;
  do_op w (OpRename (temp ++ ["vcpkg-artifacts"])%list live);;;
  do_op w (OpRemoveAll temp);;;
  do_op w (OpRemove tarball);;;
  match md with
  | Pinned v _ => do_op w (OpWriteContents (version_path live) v)
  | Latest => ret tt
  end.

Definition artifacts_dir (exe_dir : path) : path := (exe_dir ++ ["vcpkg-artifacts"])%list.

(** The [if (out_of_date)] block, once the gate said stale. *)
Definition fetch_and_install (md : mode) (live downloads tool_cache : path) : M unit :=
  let* maybe_tarball := download_vcpkg_standalone_bundle md downloads in
  match maybe_tarball with
  | None => exit_fail
  | Some tarball => install md tarball live (temp_subdirectory w tool_cache live)
  end.

(** The [paths.try_provision_vcpkg_artifacts()] branch of
    [run_configure_environment_command]. *)
Definition provision (md : mode) (exe_dir downloads tool_cache : path) : M unit :=
  let live := artifacts_dir exe_dir in
  let* out_of_date := gets (version_gate md live) in
  (if out_of_date then fetch_and_install md live downloads tool_cache else ret tt);;;
  let* has_main := gets (fs_exists (main_path live)) in
  if has_main then ret tt else exit_fail.

(** A straight-line sequence of [VCPKG_LINE_INFO] calls. *)
Fixpoint run_ops (ops : list fs_op) : M unit :=
  match ops with
  | [] => ret tt
  | o :: os => do_op w o;;; run_ops os
  end.

(** The filesystem after a sequence of calls that all succeed. *)
Fixpoint apply_ops (ops : list fs_op) (m : filesystem) : option filesystem :=
  match ops with
  | [] => Some m
  | o :: os =>
      if io_fails w o then None
      else match apply_op w o m with
           | Some m' => apply_ops os m'
           | None => None
           end
  end.

End WithWorld.

(** The log of a sequence of calls whose first [k] succeed and whose
    [k]-th one, if any, fails. *)
Definition ok_log (ops : list fs_op) (k : nat) : list event :=
  (map (fun o => EvOp o true) (take k ops) ++
   match ops !! k with Some o => [EvOp o false] | None => [] end)%list.

End Fs.
Import Fs.

(* ================================================================= *)
(** ** Invocation of the delegate *)

Module Invocation.

(** The values [run_configure_environment_command] reads from [paths],
    the process and the message loader, as strings. *)
Record invocation_env := {
  node_exe : string;                   (* paths.get_tool_exe(Tools::NODE) *)
  vcpkg_artifacts_main_path : string;
  exe_path : string;                   (* get_exe_path_of_current_process() *)
  root : string;                       (* paths.root *)
  artifacts_root : string;             (* paths.artifacts() *)
  downloads : string;                  (* paths.downloads *)
  registries_cache : string;           (* paths.registries_cache() *)
  global_config : string;              (* paths.global_config() *)
  temp_directory : string;             (* fs.create_or_get_temp_directory *)
  telemetry_uuid : string;             (* first generate_random_UUID() *)
  previous_env_uuid : string;          (* second generate_random_UUID() *)
  loaded_file : string                 (* msg::get_loaded_file() *)
}.

Definition path_join (d n : string) : string := d +:+ "/" +:+ n.

Definition telemetry_file_path (e : invocation_env) : string :=
  path_join (temp_directory e) (telemetry_uuid e +:+ "_artifacts_telemetry.txt").

(** The arguments of [cmd], from [Command{node}] to the [--language]
    pair. *)
Definition command_args (e : invocation_env) (args : list string)
  (g_debugging metrics_enabled : bool) : list string :=
  ([node_exe e; vcpkg_artifacts_main_path e] ++ args ++
   (if g_debugging then ["--debug"] else []) ++
   (if metrics_enabled then ["--z-telemetry-file"; telemetry_file_path e] else []) ++
   ["--vcpkg-root"; root e;
    "--z-vcpkg-command"; exe_path e;
    "--z-vcpkg-artifacts-root"; artifacts_root e;
    "--z-vcpkg-downloads"; downloads e;
    "--z-vcpkg-registries-cache"; registries_cache e;
    "--z-next-previous-environment";
      path_join (temp_directory e) (previous_env_uuid e +:+ "_previous_environment.txt");
    "--z-global-config"; global_config e] ++
   (if String.eqb (loaded_file e) EmptyString then []
    else ["--language"; path_join (temp_directory e) "messages.json"]))%list.

(** A path argument: non-empty and not starting with a dash, so that the
    delegate cannot take it for a flag. *)
Definition is_path_arg (s : string) : bool :=
  match s with
  | EmptyString => false
  | String c _ => negb (Ascii.eqb c (Ascii.ascii_of_nat 45))
  end.

End Invocation.

(* ================================================================= *)
(** ** Telemetry harvester *)

Module Telemetry.

(** Modelled from the spec: the values of the JSON parser (not in this
    file), objects as their member lists. *)
Inductive json :=
| JNull
| JBool (b : bool)
| JNumber (z : Z)
| JString (s : string)
| JArray (l : list json)
| JObject (o : list (string * json)).

Abbreviation json_object := (list (string * json)) (only parsing).

(** Modelled from the spec: [Json::Object::get], the first member with
    that key. *)
Definition object_get (o : json_object) (k : string) : option json :=
  option_map snd (find (fun kv => String.eqb kv.1 k) o).

Definition maybe_string (v : json) : option string :=
  match v with JString s => Some s | _ => None end.

Inductive string_metric := AcquiredArtifacts | ActivatedArtifacts.

(** [Debug::println] and [track_string] calls. *)
Inductive tevent :=
| TDebug (msg : string)
| TTrack (metric : string_metric) (value : string).

(** One of the two [if (auto x = pparsed->get(...))] blocks. *)
Definition track_field (o : json_object) (key : string) (metric : string_metric)
  (not_string_msg missing_msg : string) : list tevent :=
  match object_get o key with
  | Some v =>
      match maybe_string v with
      | Some s => [TTrack metric s]
      | None => [TDebug not_string_msg]
      end
  | None => [TDebug missing_msg]
  end.

Definition error_message (r : read_result) : string :=
  match r with
  | ReadNotFound => "No such file or directory"
  | _ => "Input/output error"
  end.

(** [track_telemetry fs telemetry_file_path]; [parse_object] is
    [Json::parse_object], with its error text on the right. *)
Definition track_telemetry (parse_object : string -> json_object + string)
  (m : filesystem) (telemetry_file_path : path) : list tevent :=
  match read_contents telemetry_file_path m with
  | ReadOk telemetry_file =>
      match parse_object telemetry_file with
      | inl pparsed =>
          (track_field pparsed JsonIdAcquiredArtifacts AcquiredArtifacts
             "Acquired artifacts was not a string." "No artifacts acquired." ++
           track_field pparsed JsonIdActivatedArtifacts ActivatedArtifacts
             "Activated artifacts was not a string." "No artifacts activated.")%list
      | inr err => [TDebug ("Telemetry file couldn't be parsed: " +:+ err)]
      end
  | r => [TDebug ("Telemetry file couldn't be read: " +:+ error_message r)]
  end.

Definition metric_calls (evs : list tevent) : list (string_metric * string) :=
  omap (fun e => match e with TTrack m v => Some (m, v) | TDebug _ => None end) evs.

Definition is_debug (e : tevent) : bool :=
  match e with TDebug _ => true | TTrack _ _ => false end.

(** The end of [run_configure_environment_command], once the delegate
    returned [node_result]: telemetry harvesting, then the exit code. *)
Definition finish_run (parse_object : string -> json_object + string)
  (m : filesystem) (maybe_telemetry_file_path : option path) (node_result : Z)
  : list tevent * Z :=
  (match maybe_telemetry_file_path with
   | Some p => track_telemetry parse_object m p
   | None => []
   end, ExitCode.clamp_exit_code node_result).

End Telemetry.

(* ================================================================= *)
(** ** A concrete host, used to run the definitions *)

Module Demo.

Definition bundle_bytes : string := "tar:vcpkg-artifacts/main.js;scripts/x".

Definition world0 : world := {|
  io_fails := fun _ => false;
  remote := fun _ => Some bundle_bytes;
  sha512 := fun c => "sha:" +:+ c;
  decode_archive := fun c =>
    if String.eqb c bundle_bytes
    then Some [(["vcpkg-artifacts"; "main.js"], "js"); (["scripts"; "x"], "x")]
    else None;
  temp_subdirectory := fun tool_cache live => (tool_cache ++ ["extract-tmp"])%list
|}.

Definition exe_dir0 : path := ["opt"; "vcpkg"].
Definition downloads0 : path := ["opt"; "vcpkg"; "downloads"].
Definition tools0 : path := ["opt"; "vcpkg"; "downloads"; "tools"].
Definition pinned0 : mode := Pinned "2024-01-01" ("sha:" +:+ bundle_bytes).

(** An old installation with a stale marker and a leftover tarball. *)
Definition fs0 : filesystem :=
  <[["opt"; "vcpkg"; "vcpkg-artifacts"; "version.txt"] := Contents "2023-01-01"]>
  (<[["opt"; "vcpkg"; "vcpkg-artifacts"; "main.js"] := Contents "old"]> ∅).

Definition st0 : state := mkState fs0 [].

(** A bundle whose [vcpkg-artifacts] subtree lacks [main.js]. *)
Definition world_nomain : world := {|
  io_fails := fun _ => false;
  remote := fun _ => Some bundle_bytes;
  sha512 := fun c => "sha:" +:+ c;
  decode_archive := fun c =>
    if String.eqb c bundle_bytes
    then Some [(["vcpkg-artifacts"; "index.js"], "js")]
    else None;
  temp_subdirectory := fun tool_cache live => (tool_cache ++ ["extract-tmp"])%list
|}.

(** An installation next to other files of the vcpkg root. *)
Definition fs_root : filesystem :=
  <[["opt"; "vcpkg"; "triplets"; "x64-linux.cmake"] := Contents "set(VCPKG_TARGET_ARCHITECTURE x64)"]>
  fs0.

Definition st_root : state := mkState fs_root [].

(** A host where every download fails. *)
Definition world_offline : world := {|
  io_fails := fun _ => false;
  remote := fun _ => None;
  sha512 := fun c => "sha:" +:+ c;
  decode_archive := fun _ => None;
  temp_subdirectory := fun tool_cache live => (tool_cache ++ ["extract-tmp"])%list
|}.

End Demo.

Module Demo2.
Import Invocation Telemetry.

Definition env0 : invocation_env := {|
  node_exe := "/usr/bin/node";
  vcpkg_artifacts_main_path := "/opt/vcpkg/vcpkg-artifacts/main.js";
  exe_path := "/opt/vcpkg/vcpkg";
  root := "/opt/vcpkg";
  artifacts_root := "/home/u/.vcpkg/artifacts";
  downloads := "/opt/vcpkg/downloads";
  registries_cache := "/home/u/.cache/vcpkg/registries";
  global_config := "/home/u/.vcpkg/vcpkg-configuration.json";
  temp_directory := "/tmp/vcpkg";
  telemetry_uuid := "0b5c";
  previous_env_uuid := "7f21";
  loaded_file := EmptyString
|}.

(** The same run with a translation loaded. *)
Definition env_fr : invocation_env := {|
  node_exe := node_exe env0;
  vcpkg_artifacts_main_path := vcpkg_artifacts_main_path env0;
  exe_path := exe_path env0;
  root := root env0;
  artifacts_root := artifacts_root env0;
  downloads := downloads env0;
  registries_cache := registries_cache env0;
  global_config := global_config env0;
  temp_directory := temp_directory env0;
  telemetry_uuid := telemetry_uuid env0;
  previous_env_uuid := previous_env_uuid env0;
  loaded_file := "/opt/vcpkg/locales/messages.fr.json"
|}.

(** The double quote character. *)
Definition dq : string := String (Ascii.ascii_of_nat 34) EmptyString.
Definition quoted (t : string) : string := dq +:+ t +:+ dq.

Definition tel_text_ok : string :=
  "{" +:+ quoted "acquired_artifacts" +:+ ": " +:+ quoted "foo" +:+ ", "
  +:+ quoted "activated_artifacts" +:+ ": " +:+ quoted "bar" +:+ "}".
Definition tel_text_wrong_type : string :=
  "{" +:+ quoted "acquired_artifacts" +:+ ": 5}".

(** A parser that knows these two telemetry files. *)
Definition parse0 (c : string) : list (string * json) + string :=
  if String.eqb c tel_text_ok
  then inl [("acquired_artifacts", JString "foo"); ("activated_artifacts", JString "bar")]
  else if String.eqb c tel_text_wrong_type
  then inl [("acquired_artifacts", JNumber 5)]
  else inr "unexpected character".

Definition telemetry_path0 : path := ["tmp"; "vcpkg"; "0b5c_artifacts_telemetry.txt"].

Definition fs_tel_ok : filesystem :=
  {[telemetry_path0 := Contents tel_text_ok]}.
Definition fs_tel_wrong_type : filesystem :=
  {[telemetry_path0 := Contents tel_text_wrong_type]}.

End Demo2.

(* ================================================================= *)
(** ** Filesystem facts *)

Module FsFacts.

Lemma fs_exists_spec (p : path) (m : filesystem) :
  fs_exists p m = true <-> ∃ k f, m !! k = Some f ∧ p `prefix_of` k.
Proof.
  unfold fs_exists. rewrite existsb_exists. split.
  - intros [k [Hin Hb]]. apply in_map_iff in Hin as [[k' f] [Hk Hin]].
    simpl in Hk; subst k'. apply bool_decide_eq_true in Hb.
    exists k, f. split; [|done].
    apply elem_of_map_to_list. by apply list_elem_of_In.
  - intros (k & f & Hl & Hp). exists k. split.
    + apply in_map_iff. exists (k, f). split; [done|].
      apply list_elem_of_In. by apply elem_of_map_to_list.
    + by apply bool_decide_eq_true.
Qed.

Lemma fs_exists_false (p : path) (m : filesystem) :
  fs_exists p m = false <-> ∀ k f, m !! k = Some f -> ¬ p `prefix_of` k.
Proof.
  rewrite <- not_true_iff_false, fs_exists_spec. naive_solver.
Qed.

Lemma remove_all_gone (p : path) (m : filesystem) :
  fs_exists p (remove_all p m) = false.
Proof.
  apply fs_exists_false. intros k f Hl.
  unfold remove_all in Hl. apply map_lookup_filter_Some in Hl as [_ Hp]. done.
Qed.

Lemma fs_exists_delete (p q : path) (m : filesystem) :
  fs_exists p m = false -> fs_exists p (delete q m) = false.
Proof.
  rewrite !fs_exists_false. intros H k f Hl.
  apply lookup_delete_Some in Hl as [_ Hl]. eauto.
Qed.

Lemma fs_exists_insert (p q : path) (f : file) (m : filesystem) :
  fs_exists p m = false -> ¬ p `prefix_of` q -> fs_exists p (<[q := f]> m) = false.
Proof.
  rewrite !fs_exists_false. intros H Hq k f' Hl.
  apply lookup_insert_Some in Hl as [[<- _]|[_ Hl]]; eauto.
Qed.

(** A prefix of [l ++ [x]] is a prefix of [l] or is [l ++ [x]]. *)
Lemma prefix_snoc_inv {A} (l1 l2 : list A) (x : A) :
  l1 `prefix_of` (l2 ++ [x])%list -> l1 `prefix_of` l2 ∨ l1 = (l2 ++ [x])%list.
Proof.
  intros [k Hk]. destruct k as [|y k _] using rev_ind.
  - right. rewrite app_nil_r in Hk. done.
  - left. rewrite app_assoc in Hk. apply app_inj_tail in Hk as [Hk _].
    by exists k.
Qed.

Lemma bind_ext {A B} (c : M A) (f g : A -> M B) (s : state) :
  (∀ a s', f a s' = g a s') -> bind c f s = bind c g s.
Proof.
  intros H. unfold bind. destruct (c s) as [[a|] s']; auto.
Qed.

Lemma bind_ret_unit (c : M unit) (s : state) : bind c (fun _ => ret tt) s = c s.
Proof.
  unfold bind, ret. destruct (c s) as [[[]|] s']; reflexivity.
Qed.

Lemma install_run_ops (w : world) (md : mode) (tarball live temp : path) (s : state) :
  install w md tarball live temp s = run_ops w (install_plan md tarball live temp) s.
Proof.
  unfold install, install_plan. simpl.
  repeat (apply bind_ext; intros [] ?).
  destruct md; simpl; [|reflexivity].
  symmetry. apply bind_ret_unit.
Qed.

Lemma run_ops_cons (w : world) (o : fs_op) (os : list fs_op) (s : state) :
  run_ops w (o :: os) s =
  if io_fails w o then (None, mkState (st_fs s) (st_log s ++ [EvOp o false])%list)
  else match apply_op w o (st_fs s) with
       | Some m' => run_ops w os (mkState m' (st_log s ++ [EvOp o true])%list)
       | None => (None, mkState (st_fs s) (st_log s ++ [EvOp o false])%list)
       end.
Proof.
  simpl. unfold bind, do_op, try_op, bind, ret, exit_fail.
  destruct (io_fails w o); [reflexivity|].
  destruct (apply_op w o (st_fs s)); reflexivity.
Qed.

Lemma run_ops_spec (w : world) (ops : list fs_op) (s : state) :
  ∃ k, (k ≤ length ops)%nat ∧
    st_log (snd (run_ops w ops s)) = (st_log s ++ ok_log ops k)%list ∧
    (fst (run_ops w ops s) = Some tt <-> k = length ops) ∧
    (k = length ops -> apply_ops w ops (st_fs s) = Some (st_fs (snd (run_ops w ops s)))).
Proof.
  revert s. induction ops as [|o os IH]; intros s.
  - exists 0. simpl. unfold ok_log. simpl. rewrite app_nil_r. naive_solver.
  - rewrite run_ops_cons.
    destruct (io_fails w o) eqn:Hio.
    + exists 0. simpl. unfold ok_log. simpl. split; [lia|].
      split; [done|]. split; [split; [discriminate|lia]|lia].
    + destruct (apply_op w o (st_fs s)) as [m'|] eqn:Hap.
      * destruct (IH (mkState m' (st_log s ++ [EvOp o true])%list))
          as (k & Hk & Hlog & Hres & Hfs).
        exists (S k). simpl. split; [lia|]. split.
        { rewrite Hlog. simpl. unfold ok_log. simpl.
          rewrite <- app_assoc. reflexivity. }
        split.
        { rewrite Hres. simpl. lia. }
        intros Heq. simpl. rewrite Hio, Hap. apply Hfs. simpl in Heq. lia.
      * exists 0. simpl. unfold ok_log. simpl. split; [lia|].
        split; [done|]. split; [split; [discriminate|lia]|lia].
Qed.

Lemma install_plan_cleanup (w : world) (md : mode) (tarball live temp : path)
  (m m' : filesystem) :
  apply_ops w (install_plan md tarball live temp) m = Some m' ->
  ¬ temp `prefix_of` live -> ¬ live `prefix_of` temp ->
  tarball ≠ version_path live ->
  fs_exists temp m' = false ∧ m' !! tarball = None.
Proof.
  intros H Htl Hlt Htv.
  destruct md as [v sha|]; simpl in H; repeat case_match; simplify_eq.
  - split.
    + apply fs_exists_insert.
      * apply fs_exists_delete, remove_all_gone.
      * unfold version_path. intros [Hp|Hp]%prefix_snoc_inv; [done|].
        apply Hlt. rewrite Hp. by apply prefix_app_r.
    + rewrite lookup_insert_ne; [|done]. apply lookup_delete_eq.
  - split.
    + apply fs_exists_delete, remove_all_gone.
    + apply lookup_delete_eq.
Qed.

Lemma download_tarball_path (w : world) (md : mode) (download_root : path)
  (s s' : state) (tarball : path) :
  download_vcpkg_standalone_bundle w md download_root s = (Some (Some tarball), s') ->
  tarball = (download_root ++ [tarball_name md])%list.
Proof.
  intros Hd. destruct md as [v sha|]; unfold download_vcpkg_standalone_bundle, bind, report,
    try_op, ret, exit_fail in Hd; simpl in Hd; repeat case_match; simplify_eq; done.
Qed.

Lemma tarball_name_not_marker (md : mode) : tarball_name md ≠ "version.txt".
Proof. destruct md; simpl; discriminate. Qed.

Lemma tarball_not_marker (md : mode) (download_root live : path) :
  (download_root ++ [tarball_name md])%list ≠ version_path live.
Proof.
  unfold version_path. intros H. apply app_inj_tail in H as [_ H].
  by apply (tarball_name_not_marker md).
Qed.

(** Once the gate says stale and the fetcher returns an archive, the
    rest of the provisioning run is the installer followed by the
    read-only check of [main.js]. *)
Lemma provision_after_fetch (w : world) (md : mode) (exe_dir downloads tool_cache : path)
  (s0 s1 : state) (tarball : path) :
  version_gate md (artifacts_dir exe_dir) (st_fs s0) = true ->
  download_vcpkg_standalone_bundle w md downloads s0 = (Some (Some tarball), s1) ->
  snd (provision w md exe_dir downloads tool_cache s0) =
  snd (install w md tarball (artifacts_dir exe_dir)
         (temp_subdirectory w tool_cache (artifacts_dir exe_dir)) s1).
Proof.
  intros Hg Hd. unfold provision, fetch_and_install, gets.
  unfold bind at 1. simpl. rewrite Hg.
  unfold bind at 2. unfold bind at 1. rewrite Hd.
  destruct (install _ _ _ _ _ s1) as [[[]|] s2]; simpl; [|reflexivity].
  unfold bind, gets, ret, exit_fail. simpl.
  destruct (fs_exists _ _); reflexivity.
Qed.

(** When the gate says not stale, provisioning leaves the filesystem
    and the log as they were. *)
Lemma provision_not_stale (w : world) (md : mode) (exe_dir downloads tool_cache : path)
  (s0 : state) :
  version_gate md (artifacts_dir exe_dir) (st_fs s0) = false ->
  snd (provision w md exe_dir downloads tool_cache s0) = s0.
Proof.
  intros Hg. unfold provision, gets, bind, ret, exit_fail. simpl. rewrite Hg. simpl.
  destruct (fs_exists _ _); reflexivity.
Qed.

(** When the gate says stale, the log of the run extends the log left by
    the fetcher. *)
Lemma provision_stale_log (w : world) (md : mode) (exe_dir downloads tool_cache : path)
  (s0 : state) :
  version_gate md (artifacts_dir exe_dir) (st_fs s0) = true ->
  ∃ rest, st_log (snd (provision w md exe_dir downloads tool_cache s0)) =
    (st_log (snd (download_vcpkg_standalone_bundle w md downloads s0)) ++ rest)%list.
Proof.
  intros Hg.
  destruct (download_vcpkg_standalone_bundle w md downloads s0)
    as [[[tarball|]|] s1] eqn:Hd.
  - rewrite (provision_after_fetch w md exe_dir downloads tool_cache s0 s1 tarball Hg Hd).
    rewrite install_run_ops. simpl.
    destruct (run_ops_spec w (install_plan md tarball (artifacts_dir exe_dir)
                (temp_subdirectory w tool_cache (artifacts_dir exe_dir))) s1)
      as (k & _ & Hlog & _).
    eexists. exact Hlog.
  - exists []. rewrite app_nil_r.
    unfold provision, fetch_and_install, gets. unfold bind at 1. simpl. rewrite Hg.
    unfold bind at 2. unfold bind at 1. rewrite Hd. reflexivity.
  - exists []. rewrite app_nil_r.
    unfold provision, fetch_and_install, gets. unfold bind at 1. simpl. rewrite Hg.
    unfold bind at 2. unfold bind at 1. rewrite Hd. reflexivity.
Qed.

(** The first calls of the fetcher, in each mode. *)
Lemma download_log_head (w : world) (md : mode) (download_root : path) (s : state) :
  let tarball := (download_root ++ [tarball_name md])%list in
  ∃ rest,
    st_log (snd (download_vcpkg_standalone_bundle w md download_root s)) =
    (st_log s ++
     match md with
     | Pinned _ sha => [EvReport DiagStatus]
     | Latest => [EvReport DiagWarning]
     end ++ rest)%list ∧
    ∃ b rest', rest =
      match md with
      | Pinned _ sha => EvOp (OpDownload (bundle_uri md) tarball (Some sha)) b :: rest'
      | Latest => EvOp (OpRemove tarball) b :: rest'
      end.
Proof.
  intros tarball. destruct md as [v sha|];
    unfold download_vcpkg_standalone_bundle, bind, report, try_op, ret, exit_fail; simpl;
    repeat case_match; simplify_eq; simpl; rewrite <- ?app_assoc; simpl;
    (eexists; split; [reflexivity|]); eauto.
Qed.

End FsFacts.

(* ================================================================= *)
(** ** Version gate and installer *)

Module Provisioning.
Import FsFacts.

(** C1: once the version gate says stale and the fetcher returns an
    archive, the run performs, in this order: extraction into the
    temporary subdirectory, removal of the live directory, rename of the
    archive's [vcpkg-artifacts] subtree onto the live directory, removal
    of the temporary directory, removal of the archive and, in pinned
    mode only, the write of the version marker; each call is made only
    if all the earlier ones succeeded (a failure exits), so the marker is
    written only after the rename succeeded; and when every call
    succeeded, nothing is left under the temporary directory and the
    archive file is gone. The temporary directory is fresh: outside the
    live directory and not containing it. *)
Theorem provision_install_steps (w : world) (md : mode)
  (exe_dir downloads tool_cache : path) (s0 s1 : state) (tarball : path) :
  let live := artifacts_dir exe_dir in
  let temp := temp_subdirectory w tool_cache live in
  let plan := ([OpExtract tarball temp;
                OpRemoveAll live;
                OpRename (temp ++ ["vcpkg-artifacts"]) live;
                OpRemoveAll temp;
                OpRemove tarball] ++
               match md with
               | Pinned v _ => [OpWriteContents (version_path live) v]
               | Latest => []
               end)%list in
  let s := snd (provision w md exe_dir downloads tool_cache s0) in
  version_gate md live (st_fs s0) = true ->
  download_vcpkg_standalone_bundle w md downloads s0 = (Some (Some tarball), s1) ->
  ¬ temp `prefix_of` live -> ¬ live `prefix_of` temp ->
  ∃ k, (k ≤ length plan)%nat ∧
    st_log s = (st_log s1 ++ ok_log plan k)%list ∧
    (k = length plan ->
       fs_exists temp (st_fs s) = false ∧ st_fs s !! tarball = None).
Proof.
  intros live temp plan s Hg Hd Htl Hlt.
  assert (Hs : s = snd (install w md tarball live temp s1))
    by (apply provision_after_fetch; assumption).
  rewrite install_run_ops in Hs.
  destruct (run_ops_spec w (install_plan md tarball live temp) s1)
    as (k & Hk & Hlog & _ & Hfs).
  exists k. split; [exact Hk|]. split.
  - rewrite Hs. exact Hlog.
  - intros Hkl. rewrite Hs.
    apply (install_plan_cleanup w md tarball live temp (st_fs s1)); [|done|done|].
    + apply Hfs. exact Hkl.
    + rewrite (download_tarball_path w md downloads s0 s1 tarball Hd).
      apply tarball_not_marker.
Qed.

Lemma provision_install_steps_witness :
  let live := artifacts_dir Demo.exe_dir0 in
  let temp := temp_subdirectory Demo.world0 Demo.tools0 live in
  let tarball := (Demo.downloads0 ++ [tarball_name Demo.pinned0])%list in
  let s1 := snd (download_vcpkg_standalone_bundle Demo.world0 Demo.pinned0
                   Demo.downloads0 Demo.st0) in
  version_gate Demo.pinned0 live (st_fs Demo.st0) = true ∧
  download_vcpkg_standalone_bundle Demo.world0 Demo.pinned0 Demo.downloads0 Demo.st0
    = (Some (Some tarball), s1) ∧
  ¬ temp `prefix_of` live ∧ ¬ live `prefix_of` temp ∧
  ∃ k, (k ≤ 6)%nat ∧
    st_log (snd (provision Demo.world0 Demo.pinned0 Demo.exe_dir0 Demo.downloads0
                   Demo.tools0 Demo.st0))
    = (st_log s1 ++ ok_log (install_plan Demo.pinned0 tarball live temp) k)%list ∧
    (k = 6%nat ->
     fs_exists temp (st_fs (snd (provision Demo.world0 Demo.pinned0 Demo.exe_dir0
                                   Demo.downloads0 Demo.tools0 Demo.st0))) = false ∧
     st_fs (snd (provision Demo.world0 Demo.pinned0 Demo.exe_dir0 Demo.downloads0
                   Demo.tools0 Demo.st0)) !! tarball = None).
Proof.
  intros live temp tarball s1.
  assert (Hg : version_gate Demo.pinned0 live (st_fs Demo.st0) = true)
    by (vm_compute; reflexivity).
  assert (Hd : download_vcpkg_standalone_bundle Demo.world0 Demo.pinned0
                 Demo.downloads0 Demo.st0 = (Some (Some tarball), s1))
    by (vm_compute; reflexivity).
  assert (H1 : ¬ temp `prefix_of` live)
    by (apply (bool_decide_eq_false_1 _); vm_compute; reflexivity).
  assert (H2 : ¬ live `prefix_of` temp)
    by (apply (bool_decide_eq_false_1 _); vm_compute; reflexivity).
  split; [exact Hg|]. split; [exact Hd|]. split; [exact H1|]. split; [exact H2|].
  exact (provision_install_steps Demo.world0 Demo.pinned0 Demo.exe_dir0
           Demo.downloads0 Demo.tools0 Demo.st0 s1 tarball Hg Hd H1 H2).
Defined.

(** C2: in pinned mode, for every installation root, the gate says
    stale exactly when the marker read does not yield the running
    version: in particular when the marker is absent, unreadable, or
    holds another string. When stale, the run goes on with the fetcher
    (its status line, then the download of the pinned archive); when not
    stale, the run makes no call at all: filesystem and log unchanged. *)
Theorem pinned_version_gate (w : world) (v sha : string)
  (exe_dir downloads tool_cache : path) (s0 : state) :
  let md := Pinned v sha in
  let live := artifacts_dir exe_dir in
  let marker := read_contents (version_path live) (st_fs s0) in
  let stale := version_gate md live (st_fs s0) in
  (stale = true <-> marker ≠ ReadOk v) ∧
  (marker = ReadNotFound -> stale = true) ∧
  (marker = ReadError -> stale = true) ∧
  (∀ c, marker = ReadOk c -> c ≠ v -> stale = true) ∧
  (stale = false <-> marker = ReadOk v) ∧
  (stale = true ->
     ∃ b rest, st_log (snd (provision w md exe_dir downloads tool_cache s0)) =
       (st_log s0 ++ [EvReport DiagStatus;
                      EvOp (OpDownload (bundle_uri md)
                              (downloads ++ [tarball_name md]) (Some sha)) b] ++ rest)%list) ∧
  (stale = false -> snd (provision w md exe_dir downloads tool_cache s0) = s0).
Proof.
  intros md live marker stale.
  assert (Hiff : stale = true <-> marker ≠ ReadOk v).
  { subst stale marker. simpl. unfold check_update_required.
    destruct (read_contents _ _) as [c| |]; [|naive_solver..].
    rewrite negb_true_iff, String.eqb_neq. naive_solver. }
  split; [exact Hiff|].
  split; [intros Hm; apply Hiff; rewrite Hm; discriminate|].
  split; [intros Hm; apply Hiff; rewrite Hm; discriminate|].
  split; [intros c Hm Hc; apply Hiff; rewrite Hm; congruence|].
  split.
  { split.
    - intros Hf. subst stale marker. simpl in Hf. unfold check_update_required in Hf.
      destruct (read_contents _ _) as [c| |]; try discriminate.
      apply negb_false_iff, String.eqb_eq in Hf. by subst.
    - intros Hm. apply not_true_iff_false. rewrite Hiff. naive_solver. }
  split.
  - intros Hs.
    destruct (provision_stale_log w md exe_dir downloads tool_cache s0 Hs) as [rest Hr].
    destruct (download_log_head w md downloads s0) as (rest1 & Hl & b & rest' & ->).
    exists b, (rest' ++ rest)%list. rewrite Hr, Hl. simpl.
    rewrite <- !app_assoc. reflexivity.
  - apply provision_not_stale.
Qed.

Lemma pinned_version_gate_witness :
  let live := artifacts_dir Demo.exe_dir0 in
  read_contents (version_path live) (st_fs Demo.st0) = ReadOk "2023-01-01" ∧
  "2023-01-01" ≠ "2024-01-01" ∧
  version_gate Demo.pinned0 live (st_fs Demo.st0) = true.
Proof.
  intros live.
  assert (Hr : read_contents (version_path live) (st_fs Demo.st0) = ReadOk "2023-01-01")
    by (vm_compute; reflexivity).
  assert (Hne : "2023-01-01" ≠ "2024-01-01") by discriminate.
  split; [exact Hr|]. split; [exact Hne|].
  destruct (pinned_version_gate Demo.world0 "2024-01-01" ("sha:" +:+ Demo.bundle_bytes)
              Demo.exe_dir0 Demo.downloads0 Demo.tools0 Demo.st0)
    as (_ & _ & _ & H4 & _).
  exact (H4 "2023-01-01" Hr Hne).
Defined.

(** C8: in latest mode the gate says stale exactly when the development
    sentinel file is absent from the installation directory; its answer
    depends on nothing else in the filesystem; when the sentinel is
    present, the run makes no call at all (no fetch, no install). *)
Theorem latest_version_gate (w : world) (exe_dir downloads tool_cache : path)
  (s0 : state) :
  let live := artifacts_dir exe_dir in
  let sentinel := fs_exists (sentinel_path live) (st_fs s0) in
  (version_gate Latest live (st_fs s0) = true <-> sentinel = false) ∧
  (∀ m' : filesystem, fs_exists (sentinel_path live) m' = sentinel ->
     version_gate Latest live m' = version_gate Latest live (st_fs s0)) ∧
  (sentinel = false ->
     ∃ b rest, st_log (snd (provision w Latest exe_dir downloads tool_cache s0)) =
       (st_log s0 ++ [EvReport DiagWarning;
                      EvOp (OpRemove (downloads ++ [tarball_name Latest])) b] ++ rest)%list) ∧
  (sentinel = true ->
     version_gate Latest live (st_fs s0) = false ∧
     snd (provision w Latest exe_dir downloads tool_cache s0) = s0).
Proof.
  intros live sentinel.
  assert (Hg : version_gate Latest live (st_fs s0) = negb sentinel) by reflexivity.
  split; [rewrite Hg, negb_true_iff; reflexivity|].
  split; [intros m' Hm; simpl; rewrite Hm; reflexivity|].
  split.
  - intros Hs.
    assert (Hst : version_gate Latest live (st_fs s0) = true) by (rewrite Hg, Hs; reflexivity).
    destruct (provision_stale_log w Latest exe_dir downloads tool_cache s0 Hst) as [rest Hr].
    destruct (download_log_head w Latest downloads s0) as (rest1 & Hl & b & rest' & ->).
    exists b, (rest' ++ rest)%list. rewrite Hr, Hl. simpl.
    rewrite <- !app_assoc. reflexivity.
  - intros Hs. assert (Hf : version_gate Latest live (st_fs s0) = false)
      by (rewrite Hg, Hs; reflexivity).
    split; [exact Hf|]. apply provision_not_stale. exact Hf.
Qed.

(** An installation with the development sentinel. *)
Lemma latest_version_gate_witness :
  let live := artifacts_dir Demo.exe_dir0 in
  let s := mkState (<[sentinel_path live := Contents "dev"]> Demo.fs0) [] in
  fs_exists (sentinel_path live) (st_fs s) = true ∧
  version_gate Latest live (st_fs s) = false ∧
  snd (provision Demo.world0 Latest Demo.exe_dir0 Demo.downloads0 Demo.tools0 s) = s.
Proof.
  intros live s.
  assert (He : fs_exists (sentinel_path live) (st_fs s) = true) by (vm_compute; reflexivity).
  split; [exact He|].
  destruct (latest_version_gate Demo.world0 Demo.exe_dir0 Demo.downloads0 Demo.tools0 s)
    as (_ & _ & _ & H4).
  exact (H4 He).
Defined.

End Provisioning.

(* ================================================================= *)
(** ** Bundle fetcher *)

Module Fetcher.

(** C5: the fetcher never exits: its result is always [Some _], either
    the tarball path or the empty result. Pinned: one download attempt,
    whose failure (unreachable URI, hash mismatch, I/O error) gives the
    empty result and leaves the filesystem alone, and whose success
    leaves the downloaded archive at the tarball path. Latest: the file
    at the tarball path is removed first; if that removal fails, an error
    is reported and the empty result returned without any download; a
    download failure gives the empty result; a success leaves the
    freshly downloaded archive at the tarball path. *)
Theorem download_bundle_outcomes (w : world) (md : mode) (download_root : path)
  (s : state) :
  let tarball := (download_root ++ [tarball_name md])%list in
  let r := fst (download_vcpkg_standalone_bundle w md download_root s) in
  let s' := snd (download_vcpkg_standalone_bundle w md download_root s) in
  match md with
  | Pinned v sha =>
      (r = Some None ∧ st_fs s' = st_fs s ∧
       st_log s' = (st_log s ++ [EvReport DiagStatus;
                                 EvOp (OpDownload (bundle_uri md) tarball (Some sha)) false])%list) ∨
      (r = Some (Some tarball) ∧
       (∃ c, remote w (bundle_uri md) = Some c ∧ sha512 w c = sha ∧
             st_fs s' = <[tarball := Contents c]> (st_fs s)) ∧
       st_log s' = (st_log s ++ [EvReport DiagStatus;
                                 EvOp (OpDownload (bundle_uri md) tarball (Some sha)) true])%list)
  | Latest =>
      (r = Some None ∧ st_fs s' = st_fs s ∧
       st_log s' = (st_log s ++ [EvReport DiagWarning; EvOp (OpRemove tarball) false;
                                 EvReport DiagError])%list) ∨
      (r = Some None ∧ st_fs s' = delete tarball (st_fs s) ∧
       st_log s' = (st_log s ++ [EvReport DiagWarning; EvOp (OpRemove tarball) true;
                                 EvOp (OpDownload (bundle_uri md) tarball None) false])%list) ∨
      (r = Some (Some tarball) ∧
       (∃ c, remote w (bundle_uri md) = Some c ∧
             st_fs s' = <[tarball := Contents c]> (delete tarball (st_fs s))) ∧
       st_log s' = (st_log s ++ [EvReport DiagWarning; EvOp (OpRemove tarball) true;
                                 EvOp (OpDownload (bundle_uri md) tarball None) true])%list)
  end.
Proof.
  intros tarball r s'. subst r s' tarball.
  destruct md as [v sha|];
    unfold download_vcpkg_standalone_bundle, bind, report, try_op, ret, exit_fail;
    simpl; repeat case_match; simplify_eq; simpl; rewrite <- ?app_assoc; simpl;
    repeat match goal with
           | H : String.eqb _ _ = true |- _ => apply String.eqb_eq in H
           end; subst; naive_solver.
Qed.

End Fetcher.

(* ================================================================= *)
(** ** Argument forwarder *)

Module ForwardProofs.
Import Forward.

Lemma more_than_one_mapped_loop_count (seen : bool) (candidates switches : list string) :
  more_than_one_mapped_loop seen candidates switches =
  if seen then (1 <=? count_set candidates switches)%nat
  else (2 <=? count_set candidates switches)%nat.
Proof.
  revert seen. induction candidates as [|c cs IH]; intros seen.
  - destruct seen; reflexivity.
  - unfold count_set in *. simpl.
    destruct (contains switches c); destruct seen; simpl; rewrite ?IH; reflexivity.
Qed.

(** The validation of a group fails exactly when two or more of its
    switches are set. *)
Lemma more_than_one_mapped_count (candidates switches : list string) :
  more_than_one_mapped candidates switches = (2 <=? count_set candidates switches)%nat.
Proof. apply more_than_one_mapped_loop_count. Qed.

(** C3 (amended): every switch is appended as [--<switch>], in the
    order of the switch set, and the group validation runs next. When
    validation passes (no group has two or more switches set), every
    setting is then appended as [--<name>] followed by its value, in the
    order of the parsed settings. When it fails, the process exits with
    exactly the switches appended and no setting. *)
Theorem forward_switches_then_validate_then_settings
  (appended_to switches : list string) (settings : list (string * string)) :
  ((count_set ArtifactOperatingSystemsSwitchNamesStorage switches ≤ 1)%nat ∧
   (count_set ArtifactHostPlatformSwitchNamesStorage switches ≤ 1)%nat ∧
   (count_set ArtifactTargetPlatformSwitchNamesStorage switches ≤ 1)%nat ->
   forward_common_artifacts_arguments appended_to switches settings =
     FwdDone (appended_to ++ map (fun s => "--" +:+ s) switches ++
              flat_map (fun kv => ["--" +:+ kv.1; kv.2]) settings)%list) ∧
  (¬ ((count_set ArtifactOperatingSystemsSwitchNamesStorage switches ≤ 1)%nat ∧
      (count_set ArtifactHostPlatformSwitchNamesStorage switches ≤ 1)%nat ∧
      (count_set ArtifactTargetPlatformSwitchNamesStorage switches ≤ 1)%nat) ->
   ∃ e, forward_common_artifacts_arguments appended_to switches settings =
     FwdExit e (appended_to ++ map (fun s => "--" +:+ s) switches)%list).
Proof.
  unfold forward_common_artifacts_arguments. rewrite !more_than_one_mapped_count.
  destruct (Nat.leb_spec 2 (count_set ArtifactOperatingSystemsSwitchNamesStorage switches));
  destruct (Nat.leb_spec 2 (count_set ArtifactHostPlatformSwitchNamesStorage switches));
  destruct (Nat.leb_spec 2 (count_set ArtifactTargetPlatformSwitchNamesStorage switches));
  (split; [intros (Ho & Hh & Ht); try lia; by rewrite <- app_assoc
          |intros Hn; first [eexists; reflexivity | exfalso; apply Hn; lia]]).
Qed.

Lemma forward_switches_then_validate_then_settings_witness :
  forward_common_artifacts_arguments [] ["osx"; "x64"] [("version", "1.0")] =
    FwdDone ["--osx"; "--x64"; "--version"; "1.0"] ∧
  ∃ e, forward_common_artifacts_arguments [] ["osx"; "windows"] [("version", "1.0")] =
    FwdExit e ["--osx"; "--windows"].
Proof.
  split.
  - rewrite (proj1 (forward_switches_then_validate_then_settings [] ["osx"; "x64"]
                      [("version", "1.0")])); [reflexivity|].
    vm_compute. lia.
  - apply (proj2 (forward_switches_then_validate_then_settings [] ["osx"; "windows"]
                    [("version", "1.0")])).
    vm_compute. lia.
Defined.

(** C3 as stated fails: on a switch set that fails validation, the
    settings have not been appended when the process exits. *)
Lemma forward_settings_before_exit_counterexample :
  ¬ (∀ (appended_to switches : list string) (settings : list (string * string))
        (e : forward_error) (v : list string),
       forward_common_artifacts_arguments appended_to switches settings = FwdExit e v ->
       v = (appended_to ++ map (fun s => "--" +:+ s) switches ++
            flat_map (fun kv => ["--" +:+ kv.1; kv.2]) settings)%list).
Proof.
  intros H.
  specialize (H [] ["osx"; "windows"] [("version", "1.0")]
                ArtifactsSwitchOnlyOneOperatingSystem ["--osx"; "--windows"] eq_refl).
  discriminate H.
Qed.

(** C4 (amended): the three groups are checked in the order operating
    systems, host architectures, target architectures; the process exits
    with the message of the first group that has two or more switches
    set; when every group has at most one, validation passes. *)
Theorem forward_validation_first_group
  (appended_to switches : list string) (settings : list (string * string)) :
  let os := count_set ArtifactOperatingSystemsSwitchNamesStorage switches in
  let host := count_set ArtifactHostPlatformSwitchNamesStorage switches in
  let target := count_set ArtifactTargetPlatformSwitchNamesStorage switches in
  let r := forward_common_artifacts_arguments appended_to switches settings in
  let with_switches := (appended_to ++ map format_switch switches)%list in
  ((2 ≤ os)%nat -> r = FwdExit ArtifactsSwitchOnlyOneOperatingSystem with_switches) ∧
  ((os ≤ 1)%nat -> (2 ≤ host)%nat ->
     r = FwdExit ArtifactsSwitchOnlyOneHostPlatform with_switches) ∧
  ((os ≤ 1)%nat -> (host ≤ 1)%nat -> (2 ≤ target)%nat ->
     r = FwdExit ArtifactsSwitchOnlyOneTargetPlatform with_switches) ∧
  ((os ≤ 1)%nat -> (host ≤ 1)%nat -> (target ≤ 1)%nat ->
     r = FwdDone (with_switches ++ forward_settings settings)%list).
Proof.
  intros os host target r with_switches. subst r.
  unfold forward_common_artifacts_arguments. rewrite !more_than_one_mapped_count.
  fold os host target with_switches.
  repeat split; intros;
    repeat match goal with
           | |- context [(2 <=? ?n)%nat] => destruct (Nat.leb_spec 2 n)
           end; first [reflexivity | lia].
Qed.

Lemma forward_validation_first_group_witness :
  count_set ArtifactOperatingSystemsSwitchNamesStorage ["linux"; "x64"; "x86"] = 1%nat ∧
  count_set ArtifactHostPlatformSwitchNamesStorage ["linux"; "x64"; "x86"] = 2%nat ∧
  forward_common_artifacts_arguments [] ["linux"; "x64"; "x86"] [] =
    FwdExit ArtifactsSwitchOnlyOneHostPlatform ["--linux"; "--x64"; "--x86"].
Proof.
  assert (H1 : count_set ArtifactOperatingSystemsSwitchNamesStorage
                 ["linux"; "x64"; "x86"] = 1%nat) by reflexivity.
  assert (H2 : count_set ArtifactHostPlatformSwitchNamesStorage
                 ["linux"; "x64"; "x86"] = 2%nat) by reflexivity.
  split; [exact H1|]. split; [exact H2|].
  destruct (forward_validation_first_group [] ["linux"; "x64"; "x86"] [])
    as (_ & Hhost & _).
  apply Hhost; lia.
Defined.

(** C4 as stated fails: with two operating systems and two host
    architectures set, the host group has two switches set but the
    message names the operating-system group. *)
Lemma forward_names_each_group_counterexample :
  ¬ (∀ (appended_to switches : list string) (settings : list (string * string)),
       (2 ≤ count_set ArtifactHostPlatformSwitchNamesStorage switches)%nat ->
       ∃ v, forward_common_artifacts_arguments appended_to switches settings =
            FwdExit ArtifactsSwitchOnlyOneHostPlatform v).
Proof.
  intros H.
  destruct (H [] ["osx"; "windows"; "x64"; "x86"] []) as [v Hv].
  - vm_compute. lia.
  - vm_compute in Hv. discriminate Hv.
Qed.

End ForwardProofs.

(* ================================================================= *)
(** ** Exit code *)

Module ExitCodeProofs.
Import ExitCode.

(** C7: a delegate exit code in [0, 127] is returned unchanged; a
    negative one or one above 127 becomes 1. *)
Theorem exit_code_clamped (node_result : Z) :
  ((0 <= node_result <= 127)%Z -> clamp_exit_code node_result = node_result) ∧
  ((node_result < 0 ∨ 127 < node_result)%Z -> clamp_exit_code node_result = 1%Z).
Proof.
  unfold clamp_exit_code. split; intros H;
    destruct (Z.ltb_spec node_result 0); destruct (Z.ltb_spec 127 node_result);
    simpl; lia.
Qed.

Lemma exit_code_clamped_witness :
  clamp_exit_code 42 = 42%Z ∧ clamp_exit_code 300 = 1%Z ∧ clamp_exit_code (-2) = 1%Z.
Proof.
  split; [apply (proj1 (exit_code_clamped 42)); lia|].
  split; [apply (proj2 (exit_code_clamped 300)); lia|].
  apply (proj2 (exit_code_clamped (-2))); lia.
Defined.

End ExitCodeProofs.

(* ================================================================= *)
(** ** Invocation builder *)

Module InvocationProofs.
Import Invocation.

Lemma path_arg_not_flag (s f : string) :
  is_path_arg s = true -> is_path_arg f = false -> s ≠ f.
Proof. intros Hs Hf ->. congruence. Qed.

Lemma path_join_path_arg (d n : string) :
  is_path_arg d = true -> is_path_arg (path_join d n) = true.
Proof. destruct d as [|c d]; [discriminate|]. intros H. exact H. Qed.

(** The arguments after the forwarded ones, from [--vcpkg-root] on. *)
Lemma fixed_tail_no_flag (e : invocation_env) (f : string) :
  is_path_arg f = false ->
  f ≠ "--vcpkg-root" -> f ≠ "--z-vcpkg-command" -> f ≠ "--z-vcpkg-artifacts-root" ->
  f ≠ "--z-vcpkg-downloads" -> f ≠ "--z-vcpkg-registries-cache" ->
  f ≠ "--z-next-previous-environment" -> f ≠ "--z-global-config" -> f ≠ "--language" ->
  is_path_arg (root e) = true -> is_path_arg (exe_path e) = true ->
  is_path_arg (artifacts_root e) = true -> is_path_arg (downloads e) = true ->
  is_path_arg (registries_cache e) = true -> is_path_arg (global_config e) = true ->
  is_path_arg (temp_directory e) = true ->
  ¬ In f
    (["--vcpkg-root"; root e;
      "--z-vcpkg-command"; exe_path e;
      "--z-vcpkg-artifacts-root"; artifacts_root e;
      "--z-vcpkg-downloads"; downloads e;
      "--z-vcpkg-registries-cache"; registries_cache e;
      "--z-next-previous-environment";
        path_join (temp_directory e) (previous_env_uuid e +:+ "_previous_environment.txt");
      "--z-global-config"; global_config e] ++
     (if String.eqb (loaded_file e) EmptyString then []
      else ["--language"; path_join (temp_directory e) "messages.json"]))%list.
Proof.
  intros Hf H1 H2 H3 H4 H5 H6 H7 H8 Hr Hx Ha Hd Hc Hg Ht Hin.
  pose proof (path_join_path_arg (temp_directory e)
                (previous_env_uuid e +:+ "_previous_environment.txt") Ht) as Hp1.
  pose proof (path_join_path_arg (temp_directory e) "messages.json" Ht) as Hp2.
  apply in_app_or in Hin as [Hin|Hin];
    [|destruct (String.eqb _ _); simpl in Hin];
    repeat destruct Hin as [Hin|Hin]; try contradiction;
    try (subst; congruence);
    match goal with
    | Hin : ?x = f, Hx : is_path_arg ?x = true |- _ =>
        exact (path_arg_not_flag x f Hx Hf Hin)
    end.
Qed.

(** C9 as stated fails: with debug mode and metrics on, [--debug] is a
    bare switch, followed by [--z-telemetry-file], not by a path. *)
Lemma debug_flag_path_counterexample :
  ¬ (∀ i, command_args Demo2.env0 [] true true !! i = Some "--debug" ->
          ∃ q, command_args Demo2.env0 [] true true !! S i = Some q ∧ is_path_arg q = true).
Proof.
  intros H. destruct (H 2%nat eq_refl) as (q & Hq & Hp).
  simpl in Hq. injection Hq as <-. discriminate Hp.
Qed.

(** C9 (amended): the arguments are the node executable, the entry
    point, the forwarded user arguments verbatim, then the builder's
    own arguments. With debug mode and metrics off, neither [--debug]
    nor [--z-telemetry-file] occurs among the builder's own arguments.
    With both on, the forwarded arguments are followed by the bare
    switch [--debug], then by [--z-telemetry-file] and a well-formed
    path (in the temporary directory, ending in
    [_artifacts_telemetry.txt]), and neither flag occurs again. The
    contextual paths are taken to be well-formed paths. *)
Theorem command_args_debug_telemetry (e : invocation_env) (args : list string) :
  is_path_arg (root e) = true -> is_path_arg (exe_path e) = true ->
  is_path_arg (artifacts_root e) = true -> is_path_arg (downloads e) = true ->
  is_path_arg (registries_cache e) = true -> is_path_arg (global_config e) = true ->
  is_path_arg (temp_directory e) = true ->
  (∃ tail,
     command_args e args false false =
       ([node_exe e; vcpkg_artifacts_main_path e] ++ args ++ tail)%list ∧
     ¬ In "--debug" tail ∧ ¬ In "--z-telemetry-file" tail) ∧
  (∃ tail,
     command_args e args true true =
       ([node_exe e; vcpkg_artifacts_main_path e] ++ args ++
        "--debug" :: "--z-telemetry-file" :: telemetry_file_path e :: tail)%list ∧
     is_path_arg (telemetry_file_path e) = true ∧
     telemetry_file_path e =
       temp_directory e +:+ "/" +:+ telemetry_uuid e +:+ "_artifacts_telemetry.txt" ∧
     ¬ In "--debug" tail ∧ ¬ In "--z-telemetry-file" tail).
Proof.
  intros Hr Hx Ha Hd Hc Hg Ht. split.
  - eexists. split; [reflexivity|].
    split; apply fixed_tail_no_flag; done.
  - eexists. split; [reflexivity|].
    split; [apply path_join_path_arg; exact Ht|].
    split; [reflexivity|].
    split; apply fixed_tail_no_flag; done.
Qed.

Lemma command_args_debug_telemetry_witness :
  command_args Demo2.env0 ["use"; "cmake"] true true =
    ["/usr/bin/node"; "/opt/vcpkg/vcpkg-artifacts/main.js"; "use"; "cmake";
     "--debug"; "--z-telemetry-file"; "/tmp/vcpkg/0b5c_artifacts_telemetry.txt";
     "--vcpkg-root"; "/opt/vcpkg";
     "--z-vcpkg-command"; "/opt/vcpkg/vcpkg";
     "--z-vcpkg-artifacts-root"; "/home/u/.vcpkg/artifacts";
     "--z-vcpkg-downloads"; "/opt/vcpkg/downloads";
     "--z-vcpkg-registries-cache"; "/home/u/.cache/vcpkg/registries";
     "--z-next-previous-environment"; "/tmp/vcpkg/7f21_previous_environment.txt";
     "--z-global-config"; "/home/u/.vcpkg/vcpkg-configuration.json"] ∧
  ∃ tail, command_args Demo2.env0 ["use"; "cmake"] false false =
    (["/usr/bin/node"; "/opt/vcpkg/vcpkg-artifacts/main.js"; "use"; "cmake"] ++ tail)%list ∧
    ¬ In "--debug" tail ∧ ¬ In "--z-telemetry-file" tail.
Proof.
  split; [reflexivity|].
  destruct (command_args_debug_telemetry Demo2.env0 ["use"; "cmake"]
              eq_refl eq_refl eq_refl eq_refl eq_refl eq_refl eq_refl)
    as [H _].
  exact H.
Defined.

End InvocationProofs.

(* ================================================================= *)
(** ** Telemetry harvester *)

Module TelemetryProofs.
Import Telemetry.

Lemma track_field_metrics (o : list (string * json)) (key : string) (metric : string_metric)
  (m1 m2 : string) :
  metric_calls (track_field o key metric m1 m2) =
  match object_get o key with
  | Some (JString a) => [(metric, a)]
  | _ => []
  end.
Proof.
  unfold track_field. destruct (object_get o key) as [[]|]; reflexivity.
Qed.

Lemma metric_calls_app (l1 l2 : list tevent) :
  metric_calls (l1 ++ l2)%list = (metric_calls l1 ++ metric_calls l2)%list.
Proof. unfold metric_calls. apply omap_app. Qed.

Lemma track_telemetry_parsed (parse_object : string -> list (string * json) + string)
  (m : filesystem) (p : path) (c : string) (o : list (string * json)) :
  read_contents p m = ReadOk c -> parse_object c = inl o ->
  metric_calls (track_telemetry parse_object m p) =
  (match object_get o JsonIdAcquiredArtifacts with
   | Some (JString a) => [(AcquiredArtifacts, a)]
   | _ => []
   end ++
   match object_get o JsonIdActivatedArtifacts with
   | Some (JString b) => [(ActivatedArtifacts, b)]
   | _ => []
   end)%list.
Proof.
  intros Hr Hp. unfold track_telemetry. rewrite Hr, Hp.
  rewrite metric_calls_app, !track_field_metrics. reflexivity.
Qed.

(** C6: telemetry is best effort. A parsed object mapping both fields
    to strings gives exactly the two metric calls, with those strings.
    An unreadable (or absent) file or an unparsable one gives no metric
    call and only debug lines. A field that is missing or not a string
    gives no metric call for that field. Whatever the telemetry file,
    the exit code is the clamped delegate code. *)
Theorem track_telemetry_best_effort (parse_object : string -> list (string * json) + string)
  (m : filesystem) (p : path) (node_result : Z) :
  let evs := track_telemetry parse_object m p in
  (∀ c o a b, read_contents p m = ReadOk c -> parse_object c = inl o ->
     object_get o JsonIdAcquiredArtifacts = Some (JString a) ->
     object_get o JsonIdActivatedArtifacts = Some (JString b) ->
     metric_calls evs = [(AcquiredArtifacts, a); (ActivatedArtifacts, b)]) ∧
  ((∀ c, read_contents p m ≠ ReadOk c) ->
     metric_calls evs = [] ∧ Forall (fun e => is_debug e = true) evs) ∧
  (∀ c err, read_contents p m = ReadOk c -> parse_object c = inr err ->
     metric_calls evs = [] ∧ Forall (fun e => is_debug e = true) evs) ∧
  (∀ c o, read_contents p m = ReadOk c -> parse_object c = inl o ->
     (∀ a, object_get o JsonIdAcquiredArtifacts ≠ Some (JString a)) ->
     ∀ a, ¬ In (AcquiredArtifacts, a) (metric_calls evs)) ∧
  (∀ c o, read_contents p m = ReadOk c -> parse_object c = inl o ->
     (∀ b, object_get o JsonIdActivatedArtifacts ≠ Some (JString b)) ->
     ∀ b, ¬ In (ActivatedArtifacts, b) (metric_calls evs)) ∧
  (∀ maybe_path, snd (finish_run parse_object m maybe_path node_result) =
                 ExitCode.clamp_exit_code node_result).
Proof.
  intros evs. split; [|split; [|split; [|split; [|split]]]].
  - intros c o a b Hr Hp Ha Hb. subst evs.
    rewrite (track_telemetry_parsed _ _ _ c o Hr Hp), Ha, Hb. reflexivity.
  - intros Hr. subst evs. unfold track_telemetry.
    destruct (read_contents p m) as [c| |]; [by destruct (Hr c)|..];
      (split; [reflexivity|]; constructor; [reflexivity|constructor]).
  - intros c err Hr Hp. subst evs. unfold track_telemetry. rewrite Hr, Hp.
    split; [reflexivity|]; constructor; [reflexivity|constructor].
  - intros c o Hr Hp Ha a Hin. subst evs.
    rewrite (track_telemetry_parsed _ _ _ c o Hr Hp) in Hin.
    apply in_app_or in Hin as [Hin|Hin].
    + destruct (object_get o JsonIdAcquiredArtifacts) as [[]|] eqn:Hg;
        simpl in Hin; try contradiction.
      destruct Hin as [Hin|[]]. injection Hin as Heq. subst. exact (Ha _ eq_refl).
    + destruct (object_get o JsonIdActivatedArtifacts) as [[]|];
        simpl in Hin; try contradiction.
      destruct Hin as [Hin|[]]. discriminate Hin.
  - intros c o Hr Hp Hb b Hin. subst evs.
    rewrite (track_telemetry_parsed _ _ _ c o Hr Hp) in Hin.
    apply in_app_or in Hin as [Hin|Hin].
    + destruct (object_get o JsonIdAcquiredArtifacts) as [[]|];
        simpl in Hin; try contradiction.
      destruct Hin as [Hin|[]]. discriminate Hin.
    + destruct (object_get o JsonIdActivatedArtifacts) as [[]|] eqn:Hg;
        simpl in Hin; try contradiction.
      destruct Hin as [Hin|[]]. injection Hin as Heq. subst. exact (Hb _ eq_refl).
  - intros maybe_path. reflexivity.
Qed.

(** The two files of the spec's example, and a missing file. *)
Lemma track_telemetry_best_effort_witness :
  metric_calls (track_telemetry Demo2.parse0 Demo2.fs_tel_ok Demo2.telemetry_path0) =
    [(AcquiredArtifacts, "foo"); (ActivatedArtifacts, "bar")] ∧
  (∀ a, ¬ In (AcquiredArtifacts, a)
          (metric_calls (track_telemetry Demo2.parse0 Demo2.fs_tel_wrong_type
                           Demo2.telemetry_path0))) ∧
  metric_calls (track_telemetry Demo2.parse0 ∅ Demo2.telemetry_path0) = [].
Proof.
  split; [|split].
  - destruct (track_telemetry_best_effort Demo2.parse0 Demo2.fs_tel_ok
                Demo2.telemetry_path0 0) as [H _].
    apply (H Demo2.tel_text_ok
             [("acquired_artifacts", JString "foo"); ("activated_artifacts", JString "bar")]);
      vm_compute; reflexivity.
  - destruct (track_telemetry_best_effort Demo2.parse0 Demo2.fs_tel_wrong_type
                Demo2.telemetry_path0 0) as (_ & _ & _ & H & _).
    apply (H Demo2.tel_text_wrong_type [("acquired_artifacts", JNumber 5)]);
      [vm_compute; reflexivity | vm_compute; reflexivity |].
    intros a. vm_compute. discriminate.
  - destruct (track_telemetry_best_effort Demo2.parse0 ∅ Demo2.telemetry_path0 0)
      as (_ & H & _).
    apply H. intros c. vm_compute. discriminate.
Defined.

(** C10: once the file is read and parsed, each field yields its metric
    call exactly when it is present with a string value, whatever the
    other field holds. *)
Theorem track_telemetry_fields_independent
  (parse_object : string -> list (string * json) + string)
  (m : filesystem) (p : path) (c : string) (o : list (string * json)) :
  read_contents p m = ReadOk c -> parse_object c = inl o ->
  metric_calls (track_telemetry parse_object m p) =
  (match object_get o JsonIdAcquiredArtifacts with
   | Some (JString a) => [(AcquiredArtifacts, a)]
   | _ => []
   end ++
   match object_get o JsonIdActivatedArtifacts with
   | Some (JString b) => [(ActivatedArtifacts, b)]
   | _ => []
   end)%list.
Proof. apply track_telemetry_parsed. Qed.

Lemma track_telemetry_fields_independent_witness :
  metric_calls (track_telemetry (fun _ => inl [("acquired_artifacts", JNumber 5);
                                               ("activated_artifacts", JString "bar")])
                  Demo2.fs_tel_ok Demo2.telemetry_path0) =
    [(ActivatedArtifacts, "bar")].
Proof.
  rewrite (track_telemetry_fields_independent
             (fun _ => inl [("acquired_artifacts", JNumber 5);
                            ("activated_artifacts", JString "bar")])
             Demo2.fs_tel_ok Demo2.telemetry_path0 Demo2.tel_text_ok
             [("acquired_artifacts", JNumber 5); ("activated_artifacts", JString "bar")]);
    [reflexivity | vm_compute; reflexivity | reflexivity].
Defined.

End TelemetryProofs.

(* ================================================================= *)
(** ** Further properties: framing, idempotence, validation, language *)

Module ExtraFacts.
Import FsFacts.

Lemma remove_all_lookup_outside (p k : path) (m : filesystem) :
  ¬ p `prefix_of` k -> remove_all p m !! k = m !! k.
Proof.
  intros Hp. unfold remove_all. destruct (m !! k) as [f|] eqn:Hk.
  - apply map_lookup_filter_Some. split; [done|]. simpl. done.
  - apply map_lookup_filter_None. left. done.
Qed.

Lemma extract_into_lookup_outside (temp k : path) (entries : list (path * string))
  (m : filesystem) :
  ¬ temp `prefix_of` k -> extract_into temp entries m !! k = m !! k.
Proof.
  intros Hp. unfold extract_into. revert m.
  induction entries as [|e es IH]; intros m; simpl; [done|].
  rewrite IH. apply lookup_insert_ne. intros Heq. apply Hp. rewrite <- Heq.
  by exists e.1.
Qed.

(** [list_to_map] of a list whose entries keyed [k] are kept and whose
    other entries are never moved onto [k]. *)
Lemma list_to_map_map_lookup (f : path * file -> path * file)
  (l : list (path * file)) (k : path) :
  (∀ kv, In kv l -> kv.1 = k -> f kv = kv) ->
  (∀ kv, In kv l -> kv.1 ≠ k -> (f kv).1 ≠ k) ->
  (list_to_map (map f l) : filesystem) !! k = (list_to_map l : filesystem) !! k.
Proof.
  induction l as [|[k' v] l IH]; intros Hfix Hmove; [done|].
  cbn [map]. destruct (decide (k' = k)) as [->|Hne].
  - rewrite (Hfix (k, v) (or_introl eq_refl) eq_refl).
    rewrite !list_to_map_cons, !lookup_insert_eq. done.
  - pose proof (Hmove (k', v) (or_introl eq_refl) Hne) as Hf.
    destruct (f (k', v)) as [k'' v''] eqn:Hkv. simpl in Hf.
    rewrite !list_to_map_cons, !lookup_insert_ne by congruence.
    apply IH; intros kv Hin; [apply Hfix|apply Hmove]; by right.
Qed.

Lemma rename_lookup_outside (src dst k : path) (m : filesystem) :
  ¬ src `prefix_of` k -> ¬ dst `prefix_of` k -> rename src dst m !! k = m !! k.
Proof.
  intros Hs Hd. unfold rename.
  rewrite list_to_map_map_lookup, list_to_map_to_list; [done| |].
  - intros [k' f] _ Hk. simpl in Hk. subst k'. simpl. by rewrite decide_False.
  - intros [k' f] _ Hk. simpl in *. case_decide; [|done].
    intros Heq. apply Hd. rewrite <- Heq. by exists (drop (length src) k').
Qed.

(** Every call of the installer leaves alone a path outside the live
    directory, the temporary directory and the archive. *)
Lemma install_plan_frame (w : world) (md : mode) (tarball live temp k : path)
  (o : fs_op) (m m' : filesystem) :
  ¬ live `prefix_of` k -> ¬ temp `prefix_of` k -> k ≠ tarball ->
  In o (install_plan md tarball live temp) -> apply_op w o m = Some m' ->
  m' !! k = m !! k.
Proof.
  intros Hl Ht Hk Hin Hap.
  assert (Hsub : ¬ (temp ++ ["vcpkg-artifacts"])%list `prefix_of` k).
  { intros Hp. apply Ht. transitivity (temp ++ ["vcpkg-artifacts"])%list; [|done].
    by exists ["vcpkg-artifacts"]. }
  assert (Hver : version_path live ≠ k).
  { intros Heq. apply Hl. rewrite <- Heq. by exists ["version.txt"]. }
  unfold install_plan in Hin.
  destruct md as [v sha|]; simpl in Hin;
    repeat destruct Hin as [<-|Hin]; try contradiction; simpl in Hap;
    repeat case_match; simplify_eq.
  all: first
    [ rewrite extract_into_lookup_outside, remove_all_lookup_outside by done; done
    | by apply remove_all_lookup_outside
    | by apply rename_lookup_outside
    | by apply lookup_delete_ne
    | by apply lookup_insert_ne ].
Qed.

Lemma run_ops_frame (w : world) (ops : list fs_op) (k : path) (s : state) :
  (∀ o m m', In o ops -> apply_op w o m = Some m' -> m' !! k = m !! k) ->
  st_fs (snd (run_ops w ops s)) !! k = st_fs s !! k.
Proof.
  revert s. induction ops as [|o os IH]; intros s H; [done|].
  rewrite run_ops_cons. destruct (io_fails w o); [done|].
  destruct (apply_op w o (st_fs s)) as [m'|] eqn:Hap; [|done].
  rewrite IH; [|intros o' m1 m2 Hin; apply H; by right].
  simpl. eapply H; [left|]; eauto.
Qed.

(** The fetcher writes or removes nothing but the archive path. *)
Lemma download_frame (w : world) (md : mode) (download_root k : path) (s : state) :
  k ≠ (download_root ++ [tarball_name md])%list ->
  st_fs (snd (download_vcpkg_standalone_bundle w md download_root s)) !! k = st_fs s !! k.
Proof.
  intros Hk. destruct md as [v sha|]; simpl in Hk;
    unfold download_vcpkg_standalone_bundle, bind, report, try_op, ret, exit_fail; simpl;
    repeat case_match; simplify_eq; simpl;
    repeat first [ rewrite lookup_insert_ne by congruence
                 | rewrite lookup_delete_ne by congruence ]; reflexivity.
Qed.

(** A provisioning run: the gate's branch, then the check of [main.js]. *)
Lemma provision_main_check (w : world) (md : mode) (exe_dir downloads tool_cache : path)
  (s0 : state) :
  provision w md exe_dir downloads tool_cache s0 =
  match (if version_gate md (artifacts_dir exe_dir) (st_fs s0)
         then fetch_and_install w md (artifacts_dir exe_dir) downloads tool_cache
         else ret tt) s0 with
  | (Some _, s1) =>
      (if fs_exists (main_path (artifacts_dir exe_dir)) (st_fs s1) then Some tt else None, s1)
  | (None, s1) => (None, s1)
  end.
Proof.
  unfold provision. unfold bind at 1. unfold gets at 1. simpl. unfold bind.
  destruct ((if version_gate md (artifacts_dir exe_dir) (st_fs s0)
             then fetch_and_install w md (artifacts_dir exe_dir) downloads tool_cache
             else ret tt) s0) as [[[]|] s1]; [|reflexivity].
  unfold gets, ret, exit_fail. simpl. destruct (fs_exists _ _); reflexivity.
Qed.

Lemma provision_ok_main (w : world) (md : mode) (exe_dir downloads tool_cache : path)
  (s0 : state) :
  fst (provision w md exe_dir downloads tool_cache s0) = Some tt ->
  fs_exists (main_path (artifacts_dir exe_dir))
    (st_fs (snd (provision w md exe_dir downloads tool_cache s0))) = true.
Proof.
  rewrite provision_main_check.
  destruct ((if version_gate md (artifacts_dir exe_dir) (st_fs s0)
             then fetch_and_install w md (artifacts_dir exe_dir) downloads tool_cache
             else ret tt) s0) as [[[]|] s1]; simpl; [|discriminate].
  destruct (fs_exists _ _); simpl; congruence.
Qed.

(** A pinned install that ran to its end wrote the marker. *)
Lemma install_pinned_marker (w : world) (v sha : string) (tarball live temp : path)
  (s : state) :
  fst (install w (Pinned v sha) tarball live temp s) = Some tt ->
  st_fs (snd (install w (Pinned v sha) tarball live temp s)) !! version_path live =
    Some (Contents v).
Proof.
  rewrite install_run_ops. intros Hok.
  destruct (run_ops_spec w (install_plan (Pinned v sha) tarball live temp) s)
    as (k & _ & _ & Hres & Hfs).
  specialize (Hfs (proj1 Hres Hok)). revert Hfs.
  generalize (st_fs (snd (run_ops w (install_plan (Pinned v sha) tarball live temp) s))).
  intros m' H. simpl in H. repeat case_match; simplify_eq. apply lookup_insert_eq.
Qed.

Lemma marker_current (v sha : string) (live : path) (m : filesystem) :
  m !! version_path live = Some (Contents v) -> version_gate (Pinned v sha) live m = false.
Proof.
  intros H. simpl. unfold check_update_required, read_contents. rewrite H.
  by rewrite String.eqb_refl.
Qed.

(** Provisioning where the gate says not stale. *)
Lemma provision_current (w : world) (md : mode) (exe_dir downloads tool_cache : path)
  (s : state) :
  version_gate md (artifacts_dir exe_dir) (st_fs s) = false ->
  provision w md exe_dir downloads tool_cache s =
  (if fs_exists (main_path (artifacts_dir exe_dir)) (st_fs s) then Some tt else None, s).
Proof. intros Hg. rewrite provision_main_check, Hg. reflexivity. Qed.

Lemma contains_In (switches : list string) (s : string) :
  Forward.contains switches s = true <-> In s switches.
Proof.
  unfold Forward.contains. rewrite existsb_exists. split.
  - intros [x [Hin Heq]]. apply String.eqb_eq in Heq. by subst.
  - intros Hin. exists s. split; [done|]. apply String.eqb_refl.
Qed.

End ExtraFacts.

Module Extras.
Import FsFacts ExtraFacts Invocation InvocationProofs.

(** X1: for a group of distinct switch names, [more_than_one_mapped]
    holds exactly when two different names of the group are set. *)
Theorem more_than_one_mapped_two_set (candidates switches : list string) :
  NoDup candidates ->
  Forward.more_than_one_mapped candidates switches = true <->
  ∃ a b, a ≠ b ∧ In a candidates ∧ In b candidates ∧ In a switches ∧ In b switches.
Proof.
  intros Hnd. rewrite ForwardProofs.more_than_one_mapped_count, Nat.leb_le.
  unfold Forward.count_set.
  apply NoDup_ListNoDup in Hnd.
  pose proof (List.NoDup_filter (Forward.contains switches) Hnd) as Hndf.
  split.
  - destruct (List.filter (Forward.contains switches) candidates) as [|a [|b l]] eqn:Hf;
      simpl; [lia|lia|]. intros _.
    assert (Ha : In a (List.filter (Forward.contains switches) candidates))
      by (rewrite Hf; left; done).
    assert (Hb : In b (List.filter (Forward.contains switches) candidates))
      by (rewrite Hf; right; left; done).
    apply filter_In in Ha as [Ha Has], Hb as [Hb Hbs].
    apply contains_In in Has, Hbs.
    exists a, b. split; [|done].
    apply List.NoDup_cons_iff in Hndf as [Hn _].
    intros ->. apply Hn. left. done.
  - intros (a & b & Hab & Ha & Hb & Has & Hbs).
    apply contains_In in Has, Hbs.
    assert (Ha' : In a (List.filter (Forward.contains switches) candidates))
      by (apply filter_In; done).
    assert (Hb' : In b (List.filter (Forward.contains switches) candidates))
      by (apply filter_In; done).
    destruct (List.filter (Forward.contains switches) candidates) as [|x [|y l]];
      simpl in *; [contradiction| |lia].
    destruct Ha' as [<-|[]], Hb' as [<-|[]]. done.
Qed.

Lemma more_than_one_mapped_two_set_witness :
  NoDup Forward.ArtifactHostPlatformSwitchNamesStorage ∧
  Forward.more_than_one_mapped Forward.ArtifactHostPlatformSwitchNamesStorage
    ["x64"; "linux"; "arm64"] = true.
Proof.
  assert (Hnd : NoDup Forward.ArtifactHostPlatformSwitchNamesStorage)
    by (apply (bool_decide_unpack _); vm_compute; exact I).
  split; [exact Hnd|].
  apply (proj2 (more_than_one_mapped_two_set _ _ Hnd)).
  exists "x64", "arm64". vm_compute. split; [discriminate|]. tauto.
Defined.

(** X2: provisioning, whatever its outcome, leaves every path outside
    the live [vcpkg-artifacts] directory, the extractor's temporary
    directory and the bundle archive as it was: the rest of the vcpkg
    root (scripts, triplets, ports) is never overwritten. *)
Theorem provision_leaves_rest_of_root (w : world) (md : mode)
  (exe_dir downloads tool_cache : path) (s0 : state) (k : path) :
  ¬ artifacts_dir exe_dir `prefix_of` k ->
  ¬ temp_subdirectory w tool_cache (artifacts_dir exe_dir) `prefix_of` k ->
  k ≠ (downloads ++ [tarball_name md])%list ->
  st_fs (snd (provision w md exe_dir downloads tool_cache s0)) !! k = st_fs s0 !! k.
Proof.
  intros Hl Ht Hk. rewrite provision_main_check.
  pose proof (download_frame w md downloads k s0 Hk) as Hf.
  destruct (version_gate md (artifacts_dir exe_dir) (st_fs s0)).
  - unfold fetch_and_install, bind.
    destruct (download_vcpkg_standalone_bundle w md downloads s0)
      as [[[t|]|] s1] eqn:Hd; simpl in Hf.
    + pose proof (download_tarball_path w md downloads s0 s1 t Hd) as ->.
      assert (Hi : st_fs (snd (install w md (downloads ++ [tarball_name md])%list
                     (artifacts_dir exe_dir)
                     (temp_subdirectory w tool_cache (artifacts_dir exe_dir)) s1)) !! k =
                   st_fs s1 !! k).
      { rewrite install_run_ops. apply run_ops_frame.
        intros o m m' Hin Hap. eapply install_plan_frame; [exact Hl|exact Ht|exact Hk|exact Hin|exact Hap]. }
      cbv beta iota.
      destruct (install w md (downloads ++ [tarball_name md])%list (artifacts_dir exe_dir)
                  (temp_subdirectory w tool_cache (artifacts_dir exe_dir)) s1)
        as [[[]|] s2]; simpl in *;
        [destruct (fs_exists (main_path (artifacts_dir exe_dir)) (st_fs s2))|]; simpl; congruence.
    + simpl. exact Hf.
    + simpl. exact Hf.
  - simpl. destruct (fs_exists (main_path (artifacts_dir exe_dir)) (st_fs s0)); reflexivity.
Qed.

Lemma provision_leaves_rest_of_root_witness :
  let k := ["opt"; "vcpkg"; "triplets"; "x64-linux.cmake"] in
  st_fs (snd (provision Demo.world0 Demo.pinned0 Demo.exe_dir0 Demo.downloads0 Demo.tools0
                Demo.st_root)) !! k = Some (Contents "set(VCPKG_TARGET_ARCHITECTURE x64)") ∧
  st_fs (snd (provision Demo.world0 Demo.pinned0 Demo.exe_dir0 Demo.downloads0 Demo.tools0
                Demo.st_root)) !! main_path (artifacts_dir Demo.exe_dir0) = Some (Contents "js").
Proof.
  intros k. split; [|vm_compute; reflexivity].
  rewrite (provision_leaves_rest_of_root Demo.world0 Demo.pinned0 Demo.exe_dir0
             Demo.downloads0 Demo.tools0 Demo.st_root k);
    [vm_compute; reflexivity| | |];
    apply (bool_decide_unpack _); vm_compute; exact I.
Defined.

(** X3: when the gate says stale and the download fails, the run exits
    and the filesystem is as before except for the archive path: the
    existing installation, marker included, is untouched. *)
Theorem failed_fetch_keeps_install (w : world) (md : mode)
  (exe_dir downloads tool_cache : path) (s0 : state) :
  version_gate md (artifacts_dir exe_dir) (st_fs s0) = true ->
  fst (download_vcpkg_standalone_bundle w md downloads s0) = Some None ->
  fst (provision w md exe_dir downloads tool_cache s0) = None ∧
  ∀ k, k ≠ (downloads ++ [tarball_name md])%list ->
    st_fs (snd (provision w md exe_dir downloads tool_cache s0)) !! k = st_fs s0 !! k.
Proof.
  intros Hg Hfetch. rewrite provision_main_check, Hg.
  unfold fetch_and_install, bind.
  destruct (download_vcpkg_standalone_bundle w md downloads s0)
    as [[[t|]|] s1] eqn:Hd; simpl in Hfetch; try discriminate.
  simpl. split; [done|]. intros k Hk.
  pose proof (download_frame w md downloads k s0 Hk) as Hf. rewrite Hd in Hf. exact Hf.
Qed.

Lemma failed_fetch_keeps_install_witness :
  fst (provision Demo.world_offline Demo.pinned0 Demo.exe_dir0 Demo.downloads0 Demo.tools0
         Demo.st0) = None ∧
  st_fs (snd (provision Demo.world_offline Demo.pinned0 Demo.exe_dir0 Demo.downloads0
                Demo.tools0 Demo.st0)) !! version_path (artifacts_dir Demo.exe_dir0) =
    Some (Contents "2023-01-01").
Proof.
  destruct (failed_fetch_keeps_install Demo.world_offline Demo.pinned0 Demo.exe_dir0
              Demo.downloads0 Demo.tools0 Demo.st0)
    as [Hx Hk]; [vm_compute; reflexivity|vm_compute; reflexivity|].
  split; [exact Hx|].
  rewrite Hk; [vm_compute; reflexivity|].
  apply (bool_decide_unpack _); vm_compute; exact I.
Defined.

(** X5: in pinned mode, provisioning is idempotent: after a run that
    returns, the gate says current, and a second run returns success
    after its two reads (the marker and [main.js]) without writing,
    removing or downloading anything: filesystem and log are unchanged. *)
Theorem pinned_provision_idempotent (w : world) (v sha : string)
  (exe_dir downloads tool_cache : path) (s0 : state) :
  fst (provision w (Pinned v sha) exe_dir downloads tool_cache s0) = Some tt ->
  version_gate (Pinned v sha) (artifacts_dir exe_dir)
    (st_fs (snd (provision w (Pinned v sha) exe_dir downloads tool_cache s0))) = false ∧
  provision w (Pinned v sha) exe_dir downloads tool_cache
    (snd (provision w (Pinned v sha) exe_dir downloads tool_cache s0)) =
  (Some tt, snd (provision w (Pinned v sha) exe_dir downloads tool_cache s0)).
Proof.
  intros Hok. pose proof (provision_ok_main _ _ _ _ _ _ Hok) as Hmain.
  assert (Hg' : version_gate (Pinned v sha) (artifacts_dir exe_dir)
                  (st_fs (snd (provision w (Pinned v sha) exe_dir downloads tool_cache s0)))
                = false).
  { revert Hok. rewrite provision_main_check.
    destruct (version_gate (Pinned v sha) (artifacts_dir exe_dir) (st_fs s0)) eqn:Hg.
    - unfold fetch_and_install, bind.
      destruct (download_vcpkg_standalone_bundle w (Pinned v sha) downloads s0)
        as [[[t|]|] s1] eqn:Hd; simpl; [|discriminate|discriminate].
      pose proof (install_pinned_marker w v sha t (artifacts_dir exe_dir)
                    (temp_subdirectory w tool_cache (artifacts_dir exe_dir)) s1) as Hm.
      destruct (install w (Pinned v sha) t (artifacts_dir exe_dir)
                  (temp_subdirectory w tool_cache (artifacts_dir exe_dir)) s1)
        as [[[]|] s2]; simpl in *; [|discriminate].
      intros _. apply (marker_current v sha), Hm. reflexivity.
    - simpl. intros _. exact Hg. }
  split; [exact Hg'|]. rewrite provision_current by exact Hg'. rewrite Hmain. reflexivity.
Qed.

Lemma pinned_provision_idempotent_witness :
  provision Demo.world0 Demo.pinned0 Demo.exe_dir0 Demo.downloads0 Demo.tools0
    (snd (provision Demo.world0 Demo.pinned0 Demo.exe_dir0 Demo.downloads0 Demo.tools0
            Demo.st0)) =
  (Some tt, snd (provision Demo.world0 Demo.pinned0 Demo.exe_dir0 Demo.downloads0 Demo.tools0
                   Demo.st0)).
Proof.
  apply (pinned_provision_idempotent Demo.world0 "2024-01-01" ("sha:" +:+ Demo.bundle_bytes)).
  vm_compute. reflexivity.
Defined.

(** X6: in pinned mode, the marker is written before [main.js] is
    checked. A bundle without [main.js] thus makes the run exit with
    the marker already current, and every later run exits at once
    without fetching the bundle again. *)
Theorem pinned_missing_main_sticks (w : world) (v sha : string)
  (exe_dir downloads tool_cache : path) (s0 s1 : state) (t : path) :
  version_gate (Pinned v sha) (artifacts_dir exe_dir) (st_fs s0) = true ->
  download_vcpkg_standalone_bundle w (Pinned v sha) downloads s0 = (Some (Some t), s1) ->
  fst (install w (Pinned v sha) t (artifacts_dir exe_dir)
         (temp_subdirectory w tool_cache (artifacts_dir exe_dir)) s1) = Some tt ->
  fs_exists (main_path (artifacts_dir exe_dir))
    (st_fs (snd (install w (Pinned v sha) t (artifacts_dir exe_dir)
                   (temp_subdirectory w tool_cache (artifacts_dir exe_dir)) s1))) = false ->
  let s2 := snd (install w (Pinned v sha) t (artifacts_dir exe_dir)
                   (temp_subdirectory w tool_cache (artifacts_dir exe_dir)) s1) in
  provision w (Pinned v sha) exe_dir downloads tool_cache s0 = (None, s2) ∧
  version_gate (Pinned v sha) (artifacts_dir exe_dir) (st_fs s2) = false ∧
  provision w (Pinned v sha) exe_dir downloads tool_cache s2 = (None, s2).
Proof.
  intros Hg Hd Hi Hmain s2.
  pose proof (install_pinned_marker w v sha t (artifacts_dir exe_dir)
                (temp_subdirectory w tool_cache (artifacts_dir exe_dir)) s1 Hi) as Hm.
  assert (Hg2 : version_gate (Pinned v sha) (artifacts_dir exe_dir) (st_fs s2) = false)
    by (apply (marker_current v sha), Hm).
  split; [|split; [exact Hg2|]].
  - rewrite provision_main_check, Hg. unfold fetch_and_install, bind at 1. rewrite Hd.
    cbv beta iota. unfold s2 in *.
    destruct (install w (Pinned v sha) t (artifacts_dir exe_dir)
                (temp_subdirectory w tool_cache (artifacts_dir exe_dir)) s1)
      as [[[]|] s3]; simpl in *; [|discriminate].
    rewrite Hmain. reflexivity.
  - rewrite provision_current by exact Hg2. unfold s2. rewrite Hmain. reflexivity.
Qed.

Lemma pinned_missing_main_sticks_witness :
  let s1 := snd (download_vcpkg_standalone_bundle Demo.world_nomain Demo.pinned0
                   Demo.downloads0 Demo.st0) in
  let s2 := snd (install Demo.world_nomain Demo.pinned0
                   (Demo.downloads0 ++ [tarball_name Demo.pinned0])%list
                   (artifacts_dir Demo.exe_dir0)
                   (temp_subdirectory Demo.world_nomain Demo.tools0
                      (artifacts_dir Demo.exe_dir0)) s1) in
  provision Demo.world_nomain Demo.pinned0 Demo.exe_dir0 Demo.downloads0 Demo.tools0 s2 =
    (None, s2).
Proof.
  intros s1 s2.
  apply (pinned_missing_main_sticks Demo.world_nomain "2024-01-01"
           ("sha:" +:+ Demo.bundle_bytes) Demo.exe_dir0 Demo.downloads0 Demo.tools0
           Demo.st0 s1 (Demo.downloads0 ++ [tarball_name Demo.pinned0])%list);
    vm_compute; reflexivity.
Defined.

(** X7: [--language] is passed exactly when a message file is loaded,
    as the last pair, with a path into the temporary directory; the
    builder adds it nowhere else. The contextual paths are taken to be
    well-formed paths. *)
Theorem command_args_language (e : invocation_env) (args : list string)
  (g_debugging metrics_enabled : bool) :
  is_path_arg (root e) = true -> is_path_arg (exe_path e) = true ->
  is_path_arg (artifacts_root e) = true -> is_path_arg (downloads e) = true ->
  is_path_arg (registries_cache e) = true -> is_path_arg (global_config e) = true ->
  is_path_arg (temp_directory e) = true ->
  ∃ tail,
    ¬ In "--language" tail ∧
    command_args e args g_debugging metrics_enabled =
      ([node_exe e; vcpkg_artifacts_main_path e] ++ args ++ tail ++
       (if String.eqb (loaded_file e) EmptyString then []
        else ["--language"; path_join (temp_directory e) "messages.json"]))%list ∧
    is_path_arg (path_join (temp_directory e) "messages.json") = true.
Proof.
  intros Hr Hx Ha Hd Hc Hg Ht.
  pose proof (path_join_path_arg (temp_directory e)
                (previous_env_uuid e +:+ "_previous_environment.txt") Ht) as Hp1.
  pose proof (path_join_path_arg (temp_directory e)
                (telemetry_uuid e +:+ "_artifacts_telemetry.txt") Ht) as Hp2.
  exists ((if g_debugging then ["--debug"] else []) ++
          (if metrics_enabled then ["--z-telemetry-file"; telemetry_file_path e] else []) ++
          ["--vcpkg-root"; root e;
           "--z-vcpkg-command"; exe_path e;
           "--z-vcpkg-artifacts-root"; artifacts_root e;
           "--z-vcpkg-downloads"; downloads e;
           "--z-vcpkg-registries-cache"; registries_cache e;
           "--z-next-previous-environment";
             path_join (temp_directory e) (previous_env_uuid e +:+ "_previous_environment.txt");
           "--z-global-config"; global_config e])%list.
  split; [|split; [unfold command_args; by rewrite <- !app_assoc
                  |apply path_join_path_arg; exact Ht]].
  intros Hin.
  apply in_app_or in Hin as [Hin|Hin];
    [destruct g_debugging; simpl in Hin|apply in_app_or in Hin as [Hin|Hin];
      [destruct metrics_enabled; simpl in Hin|simpl in Hin]];
    repeat destruct Hin as [Hin|Hin]; try contradiction; try discriminate;
    match goal with
    | Hin : ?x = "--language", Hx : is_path_arg ?x = true |- _ =>
        exact (path_arg_not_flag x "--language" Hx eq_refl Hin)
    end.
Qed.

Lemma command_args_language_witness :
  ∃ tail, ¬ In "--language" tail ∧
    command_args Demo2.env_fr ["activate"] false false =
      (["/usr/bin/node"; "/opt/vcpkg/vcpkg-artifacts/main.js"; "activate"] ++ tail ++
       ["--language"; "/tmp/vcpkg/messages.json"])%list.
Proof.
  destruct (command_args_language Demo2.env_fr ["activate"] false false)
    as (tail & Hn & Heq & _); try reflexivity.
  exists tail. split; [exact Hn|]. exact Heq.
Defined.

End Extras.
